(** * SchnorrSecp256k1VerificationKey2019 and the custom document loader

    A shallow embedding of [src/SchnorrSecp256k1VerificationKey2019.ts]
    (the linked data key with its signer and verifier factories) and of
    the custom JSON-LD document loader, followed by the properties of
    both that the specification states.

    JavaScript values are an inductive type; objects are finite maps
    from property names to values (the order of the properties, which
    nothing here reads, is not kept); [async] functions return a [Run],
    the completion of the promise together with the calls made to the
    outside world while it ran. *)

From Stdlib Require Import ZArith Uint63 Floats.
From stdpp Require Import base option list strings gmap pretty.

Set Warnings "-register-all".

(** ** JavaScript values *)

(** The two built-in prototype objects that the values below inherit
    from. *)
Inductive Prototype : Type :=
| ObjectPrototype
| ArrayPrototype.

(** [JFunction] is a built-in function object, named by its path
    ([Object.prototype.toString]); [JPrototype] is a prototype object
    itself, as read through [__proto__]. *)
Inductive JsValue : Type :=
| JUndefined
| JNull
| JBool (b : bool)
| JNum (n : float)
| JStr (s : string)
| JArr (items : list JsValue)
| JObj (props : gmap string JsValue)
| JFunction (path : string)
| JPrototype (proto : Prototype).

(** ToBoolean: [if (v)], [!v], [v || w]. *)
Definition truthy (v : JsValue) : bool :=
  match v with
  | JUndefined | JNull => false
  | JBool b => b
  | JNum n => negb (PrimFloat.is_zero n || PrimFloat.is_nan n)
  | JStr s => negb (String.eqb s "")
  | JArr _ | JObj _ | JFunction _ | JPrototype _ => true
  end.

(** [typeof v]. *)
Definition typeof (v : JsValue) : string :=
  match v with
  | JUndefined => "undefined"
  | JNull => "object"
  | JBool _ => "boolean"
  | JNum _ => "number"
  | JStr _ => "string"
  | JArr _ | JObj _ | JPrototype _ => "object"
  | JFunction _ => "function"
  end.

(** [v === undefined]. *)
Definition is_undefined (v : JsValue) : bool :=
  match v with JUndefined => true | _ => false end.

(** [v === s] for a string literal [s], and [v === b] for a boolean
    literal [b]: strict equality never converts. *)
Definition strict_equals_string (v : JsValue) (s : string) : bool :=
  match v with JStr t => String.eqb t s | _ => false end.

Definition strict_equals_bool (v : JsValue) (b : bool) : bool :=
  match v with JBool c => Bool.eqb c b | _ => false end.

(** The indexed entries of an array, keyed by the decimal index. *)
Definition array_entries (items : list JsValue) : gmap string JsValue :=
  list_to_map (imap (λ i x, (pretty i, x)) items).

Definition string_entries (s : string) : gmap string JsValue :=
  array_entries ((λ c, JStr (String c EmptyString)) <$> String.list_ascii_of_string s).

(** The own enumerable string-keyed properties of a value: what
    [{ ...v }] copies and [Object.keys(v)] lists.  Spreading
    [undefined], [null], a boolean or a number copies nothing; the
    members of the built-in objects are not enumerable. *)
Definition own_enumerable (v : JsValue) : gmap string JsValue :=
  match v with
  | JObj props => props
  | JArr items => array_entries items
  | JStr s => string_entries s
  | _ => ∅
  end.

(** [{ ...v }], a fresh object holding a shallow copy. *)
Definition spread (v : JsValue) : gmap string JsValue := own_enumerable v.

(** [Object.keys(v).length]. *)
Definition Object_keys_length (v : JsValue) : nat := size (own_enumerable v).

Definition number_of_nat (n : nat) : float :=
  PrimFloat.of_uint63 (Uint63.of_Z (Z.of_nat n)).

(** The own property [p] of an object or an array ([length] is own but
    not enumerable). *)
Definition own_property (v : JsValue) (p : string) : option JsValue :=
  match v with
  | JObj props => props !! p
  | JArr items =>
      if String.eqb p "length" then Some (JNum (number_of_nat (length items)))
      else array_entries items !! p
  | _ => None
  end.

(** The string-keyed members of the built-in prototypes; all of them
    are functions, except the accessor [__proto__], see [js_get]. *)
Definition prototype_path (proto : Prototype) : string :=
  match proto with
  | ObjectPrototype => "Object.prototype"
  | ArrayPrototype => "Array.prototype"
  end.

Definition prototype_methods (proto : Prototype) : list string :=
  match proto with
  | ObjectPrototype =>
      ["constructor"; "__defineGetter__"; "__defineSetter__";
       "hasOwnProperty"; "__lookupGetter__"; "__lookupSetter__";
       "isPrototypeOf"; "propertyIsEnumerable"; "toString"; "valueOf";
       "toLocaleString"]
  | ArrayPrototype =>
      ["constructor"; "at"; "concat"; "copyWithin"; "fill"; "find";
       "findIndex"; "findLast"; "findLastIndex"; "lastIndexOf"; "pop";
       "push"; "reverse"; "shift"; "unshift"; "slice"; "sort"; "splice";
       "includes"; "indexOf"; "join"; "keys"; "entries"; "values";
       "forEach"; "filter"; "flat"; "flatMap"; "map"; "every"; "some";
       "reduce"; "reduceRight"; "toLocaleString"; "toString";
       "toReversed"; "toSorted"; "toSpliced"; "with"]
  end.

Definition prototype_parent (proto : Prototype) : option Prototype :=
  match proto with
  | ObjectPrototype => None
  | ArrayPrototype => Some ObjectPrototype
  end.

Definition prototype_method (proto : Prototype) (p : string) : option JsValue :=
  if existsb (String.eqb p) (prototype_methods proto)
  then Some (JFunction (prototype_path proto +:+ "." +:+ p))
  else None.

(** Lookup of [p] along the prototype chain that starts at [proto]. *)
Definition inherited (proto : Prototype) (p : string) : option JsValue :=
  match prototype_method proto p with
  | Some f => Some f
  | None =>
      match prototype_parent proto with
      | Some parent => prototype_method parent p
      | None => None
      end
  end.

Definition prototype_of (v : JsValue) : option Prototype :=
  match v with
  | JObj _ => Some ObjectPrototype
  | JArr _ => Some ArrayPrototype
  | _ => None
  end.

(** [v[p]] and [v.p] on an object or an array: the own property, else
    the inherited one, else [undefined].  [__proto__] is an accessor of
    [Object.prototype] that answers the prototype of the receiver.  The
    code reads members of object literals and of parsed JSON only, so
    the members of the other values are left out. *)
Definition js_get (v : JsValue) (p : string) : JsValue :=
  match own_property v p with
  | Some x => x
  | None =>
      match prototype_of v with
      | Some proto =>
          if String.eqb p "__proto__" then JPrototype proto
          else default JUndefined (inherited proto p)
      | None => JUndefined
      end
  end.

(** [Array.isArray(v)], [v.length] and [v[0]] for an array [v]. *)
Definition Array_isArray (v : JsValue) : bool :=
  match v with JArr _ => true | _ => false end.

Definition array_length (v : JsValue) : nat :=
  match v with JArr items => length items | _ => 0 end.

Definition array_at (v : JsValue) (i : nat) : JsValue :=
  match v with JArr items => default JUndefined (items !! i) | _ => JUndefined end.

(** [a || b] on optional strings ([undefined] and the empty string are
    falsy). *)
Definition or_else (a : option string) (b : string) : string :=
  match a with
  | Some s => if String.eqb s "" then b else s
  | None => b
  end.

(** [s.split(sep)[0]] for a non-empty separator: the part of [s] before
    the first occurrence of [sep], all of [s] when there is none. *)
Fixpoint before_separator (sep s : string) : string :=
  match s with
  | EmptyString => EmptyString
  | String c rest =>
      if String.prefix sep s then EmptyString
      else String c (before_separator sep rest)
  end.

(** ** Errors, completions and asynchronous runs *)

Record JsError : Type := mkError { err_name : string; err_message : string }.

(** [new Error(msg)] and [new RangeError(msg)]. *)
Definition Error (msg : string) : JsError := mkError "Error" msg.
Definition RangeError (msg : string) : JsError := mkError "RangeError" msg.
Definition SyntaxError (msg : string) : JsError := mkError "SyntaxError" msg.

(** [Error.prototype.toString], used by ['...' + e]. *)
Definition error_toString (e : JsError) : string :=
  if String.eqb (err_name e) "" then err_message e
  else if String.eqb (err_message e) "" then err_name e
  else err_name e +:+ ": " +:+ err_message e.

Inductive Completion (A : Type) : Type :=
| Returned (a : A)
| Thrown (e : JsError).
Arguments Returned {A} a.
Arguments Thrown {A} e.

(** What a run does to the outside world: the calls to the signing
    primitive and the console. *)
Inductive Event : Type :=
| CallSignDetached (payload : list Byte.byte) (privateKeyJwk header : JsValue)
| CallVerifyDetached (signature : string) (payload : list Byte.byte) (publicKeyJwk : JsValue)
| ConsoleError (v : JsValue).

(** An [async] function body run to the end: the events in order, and
    the promise resolved ([Returned]) or rejected ([Thrown]). *)
Record Run (A : Type) : Type := mkRun { events : list Event; outcome : Completion A }.
Arguments mkRun {A} events outcome.
Arguments events {A} r.
Arguments outcome {A} r.

#[global] Instance Run_ret : MRet Run := λ A a, mkRun [] (Returned a).

#[global] Instance Run_bind : MBind Run := λ A B f m,
  match outcome m with
  | Returned a => mkRun (events m ++ events (f a)) (outcome (f a))
  | Thrown e => mkRun (events m) (Thrown e)
  end.

(** [throw e]. *)
Definition throw {A : Type} (e : JsError) : Run A := mkRun [] (Thrown e).

(** A synchronous call that leaves no event. *)
Definition complete {A : Type} (c : Completion A) : Run A := mkRun [] c.

(** A call to the outside world, recorded. *)
Definition external {A : Type} (ev : Event) (c : Completion A) : Run A := mkRun [ev] c.

(** [try { m } catch (e) { h e }]. *)
Definition try_catch {A : Type} (m : Run A) (h : JsError → Run A) : Run A :=
  match outcome m with
  | Returned a => m
  | Thrown e => mkRun (events m ++ events (h e)) (outcome (h e))
  end.

(** ** Buffers *)

Definition double_quote : string := String (Ascii.ascii_of_nat 34) EmptyString.
Definition quoted (s : string) : string := double_quote +:+ s +:+ double_quote.

(** Node's [Buffer.from(arrayBuffer, byteOffset, length)]: the bytes of
    the window, or a [RangeError] when the window leaves the buffer. *)
Definition Buffer_from (arrayBuffer : list Byte.byte) (byteOffset len : nat)
  : Completion (list Byte.byte) :=
  if length arrayBuffer <? byteOffset
  then Thrown (RangeError (quoted "offset" +:+ " is outside of buffer bounds"))
  else if length arrayBuffer <? byteOffset + len
  then Thrown (RangeError (quoted "length" +:+ " is outside of buffer bounds"))
  else Returned (take len (drop byteOffset arrayBuffer)).

(** A [Uint8Array]: a window of [elements] into an [ArrayBuffer] that
    also holds the bytes [before] and [after] it. *)
Module Uint8Array.
Record t : Type := make {
  before : list Byte.byte;
  elements : list Byte.byte;
  after : list Byte.byte
}.
Definition buffer (d : t) : list Byte.byte := before d ++ elements d ++ after d.
Definition byteOffset (d : t) : nat := List.length (before d).
Definition length (d : t) : nat := List.length (elements d).
End Uint8Array.

#[global] Instance Completion_ret : MRet Completion := λ A a, Returned a.

#[global] Instance Completion_bind : MBind Completion := λ A B f c,
  match c with
  | Returned a => f a
  | Thrown e => Thrown e
  end.

(** ** The collaborators

    The key calls [keyUtils.getKid], the two operations of
    [SchnorrES256K], [base64url.decode] and [JSON.parse]; none of them
    is part of the file, so the key is modelled over any choice of
    them.  Each says how it completes on an argument.  [getKid] is the
    RFC 7638 thumbprint, a string computed from the members of the JWK
    in a canonical order. *)
Class Collaborators : Type := {
  getKid : JsValue → string;
  signDetached : list Byte.byte → JsValue → JsValue → Completion string;
  verifyDetached : string → list Byte.byte → JsValue → Completion JsValue;
  base64url_decode : string → Completion string;
  JSON_parse : string → Completion JsValue
}.

(** ** The key *)

(** [ISchnorrSecp256k1VerificationKey2019Options]: [id] and [type] are
    optional strings, the two JWKs are [any] and [undefined] when left
    out. *)
Record ISchnorrSecp256k1VerificationKey2019Options : Type := {
  id : option string;
  type : option string;
  controller : string;
  privateKeyJwk : JsValue;
  publicKeyJwk : JsValue
}.

(** An instance of the class, with its five public fields. *)
Record SchnorrSecp256k1VerificationKey2019 : Type := {
  this_id : string;
  this_type : string;
  this_controller : string;
  this_privateKeyJwk : JsValue;
  this_publicKeyJwk : JsValue
}.

(** The class implements the options interface: an instance is passed
    where options are expected. *)
Definition as_options (this : SchnorrSecp256k1VerificationKey2019)
  : ISchnorrSecp256k1VerificationKey2019Options :=
  {| id := Some (this_id this);
     type := Some (this_type this);
     controller := this_controller this;
     privateKeyJwk := this_privateKeyJwk this;
     publicKeyJwk := this_publicKeyJwk this |}.

Record ISigner : Type := { sign : Uint8Array.t → Run string }.

Record IVerifier : Type := { verify : Uint8Array.t → string → Run bool }.

Definition SchnorrES256K_alg : string := "SchnorrES256K".
Definition key_type : string := "SchnorrSecp256k1VerificationKey2019".

(** The header that [sign] attaches. *)
Definition sign_header : JsValue :=
  JObj (<["alg" := JStr SchnorrES256K_alg]>
        (<["b64" := JBool false]>
        (<["crit" := JArr [JStr "b64"]]> ∅))).

(** The conjunction inside the negation of the guard of [verify]. *)
Definition header_matches (header : JsValue) : bool :=
  strict_equals_string (js_get header "alg") SchnorrES256K_alg &&
  strict_equals_bool (js_get header "b64") false &&
  Array_isArray (js_get header "crit") &&
  (array_length (js_get header "crit") =? 1) &&
  strict_equals_string (array_at (js_get header "crit") 0) "b64".

Section Key.
Context `{Collaborators}.

(** [joseSignerFactory]: [sign] takes the [data] of its argument. *)
Definition joseSignerFactory (key : ISchnorrSecp256k1VerificationKey2019Options)
  : ISigner :=
  if negb (truthy (privateKeyJwk key)) then
    {| sign := λ _, throw (Error "No private key to sign with.") |}
  else
    {| sign := λ data,
         let header := sign_header in
         toBeSigned ← complete (Buffer_from (Uint8Array.buffer data)
                                  (Uint8Array.byteOffset data)
                                  (Uint8Array.length data));
         external (CallSignDetached toBeSigned (privateKeyJwk key) header)
                  (signDetached toBeSigned (privateKeyJwk key) header) |}.

(** [JSON.parse(base64url.decode(encodedHeader))]. *)
Definition parse_header (encodedHeader : string) : Completion JsValue :=
  base64url_decode encodedHeader ≫= JSON_parse.

(** [joseVerifierFactory]: [verify] takes the [data] and the
    [signature] of its argument. *)
Definition joseVerifierFactory (key : ISchnorrSecp256k1VerificationKey2019Options)
  : IVerifier :=
  if negb (truthy (publicKeyJwk key)) then
    {| verify := λ _ _, throw (Error "No public key to verify with.") |}
  else
    {| verify := λ data signature,
         let alg := SchnorrES256K_alg in
         let type := key_type in
         let encodedHeader := before_separator ".." signature in
         header ← try_catch (complete (parse_header encodedHeader))
                    (λ e, throw (Error ("Could not parse JWS header; "
                                        +:+ error_toString e)));
         if negb (truthy header && String.eqb (typeof header) "object") then
           throw (Error "Invalid JWS header.")
         else if negb (header_matches header) && (Object_keys_length header =? 3) then
           _ ← external (ConsoleError header) (Returned ());
           throw (Error ("Invalid JWS header parameters for " +:+ type +:+ "."))
         else
           let verified := false in
           payload ← complete (Buffer_from (Uint8Array.buffer data)
                                 (Uint8Array.byteOffset data)
                                 (Uint8Array.length data));
           verified ← try_catch
                        (_ ← external (CallVerifyDetached signature payload
                                         (publicKeyJwk key))
                                      (verifyDetached signature payload
                                         (publicKeyJwk key));
                         mret true)
                        (λ _, mret verified);
           mret verified |}.

(** The static [fingerprintFromPublicKey]. *)
Definition fingerprintFromPublicKey
    (options : ISchnorrSecp256k1VerificationKey2019Options) : string :=
  let temp := spread (publicKeyJwk options) in
  let temp := delete "kid" temp in
  getKid (JObj temp).

(** The method [fingerprint]. *)
Definition fingerprint (this : SchnorrSecp256k1VerificationKey2019) : string :=
  let temp := spread (this_publicKeyJwk this) in
  let temp := delete "kid" temp in
  getKid (JObj temp).

(** The constructor.  [this_id] holds the empty string until the last
    assignment; [fingerprint] does not read it. *)
Definition constructor (options : ISchnorrSecp256k1VerificationKey2019Options)
  : SchnorrSecp256k1VerificationKey2019 :=
  let this :=
    {| this_id := "";
       this_type := or_else (type options) "SchnorrSecp256k1VerificationKey2019";
       this_controller := controller options;
       this_privateKeyJwk := privateKeyJwk options;
       this_publicKeyJwk := publicKeyJwk options |} in
  let this :=
    if is_undefined (this_publicKeyJwk this) then
      {| this_id := this_id this;
         this_type := this_type this;
         this_controller := this_controller this;
         this_privateKeyJwk := this_privateKeyJwk this;
         this_publicKeyJwk := JObj (delete "d" (spread (this_privateKeyJwk this))) |}
    else this in
  {| this_id := or_else (id options)
                  (this_controller this +:+ "#" +:+ fingerprint this);
     this_type := this_type this;
     this_controller := this_controller this;
     this_privateKeyJwk := this_privateKeyJwk this;
     this_publicKeyJwk := this_publicKeyJwk this |}.

(** The methods [signer] and [verifier]. *)
Definition signer (this : SchnorrSecp256k1VerificationKey2019) : ISigner :=
  joseSignerFactory (as_options this).

Definition verifier (this : SchnorrSecp256k1VerificationKey2019) : IVerifier :=
  joseVerifierFactory (as_options this).
(** The static [from], the asynchronous form of the constructor. *)
Definition from (options : ISchnorrSecp256k1VerificationKey2019Options)
  : Run SchnorrSecp256k1VerificationKey2019 :=
  mret (constructor options).
End Key.

(** ** The public node

    [addEncodedPublicKey] assigns to a property of the object it is
    given, and [publicNode] builds its result by such assignments: the
    objects that these two methods write to live in a store, under
    references, and a method takes the store and gives the new one. *)

(** [publicKeyNode.publicKeyJwk = this.publicKeyJwk; return publicKeyNode]. *)
Definition addEncodedPublicKey (this : SchnorrSecp256k1VerificationKey2019)
    (publicKeyNode : nat) (store : gmap nat (gmap string JsValue))
  : gmap nat (gmap string JsValue) * nat :=
  let store :=
    alter (insert "publicKeyJwk" (this_publicKeyJwk this)) publicKeyNode store in
  (store, publicKeyNode).

(** [publicNode]: the object literal is allocated at a reference that
    the store does not hold yet. *)
Definition publicNode (this : SchnorrSecp256k1VerificationKey2019)
    (store : gmap nat (gmap string JsValue))
  : gmap nat (gmap string JsValue) * nat :=
  let controller := this_controller this in
  let publicNode := fresh (dom store) in
  let store :=
    <[publicNode := <["id" := JStr (this_id this)]>
                    (<["type" := JStr (this_type this)]> ∅)]> store in
  let store :=
    if truthy (JStr controller)
    then alter (insert "controller" (JStr controller)) publicNode store
    else store in
  addEncodedPublicKey this publicNode store.

(** ** The custom document loader *)

(** The five context documents and the example DID document, which the
    loader obtains with [require]. *)
Class ContextDocuments : Type := {
  did_v1 : JsValue;
  did_v0_11 : JsValue;
  security_v1 : JsValue;
  security_v2 : JsValue;
  schnorr_v1 : JsValue;
  didDoc : JsValue
}.

Record RemoteDocument : Type := {
  contextUrl : JsValue;
  document : JsValue;
  documentUrl : string
}.

Definition schnorr_v1_url : string :=
  "https://identity.foundation/SchnorrSecp256k1Signature2019/contexts/schnorr-v1.json".

Section Loader.
Context `{ContextDocuments}.

(** The object literal [contexts]. *)
Definition contexts : gmap string JsValue :=
  <["https://www.w3.org/ns/did/v1" := did_v1]>
  (<["https://w3id.org/did/v1" := did_v0_11]>
  (<["https://w3id.org/security/v1" := security_v1]>
  (<["https://w3id.org/security/v2" := security_v2]>
  (<[schnorr_v1_url := schnorr_v1]> ∅)))).

Definition customLoader (url : string) : Completion RemoteDocument :=
  let context := js_get (JObj contexts) url in
  if truthy context then
    Returned {| contextUrl := JNull; document := context; documentUrl := url |}
  else if String.eqb (before_separator "#" url) "did:example:123" then
    Returned {| contextUrl := JNull; document := didDoc; documentUrl := url |}
  else
    Thrown (Error ("No custom context support for " +:+ url)).
End Loader.

(** ** The error kinds of the specification, as the values thrown *)

Definition NoPrivateKey : JsError := Error "No private key to sign with.".
Definition NoPublicKey : JsError := Error "No public key to verify with.".
Definition HeaderParseError (e : JsError) : JsError :=
  Error ("Could not parse JWS header; " +:+ error_toString e).
Definition InvalidHeaderShape : JsError := Error "Invalid JWS header.".
Definition InvalidHeaderParameters : JsError :=
  Error "Invalid JWS header parameters for SchnorrSecp256k1VerificationKey2019.".
Definition UnsupportedContextUrl (url : string) : JsError :=
  Error ("No custom context support for " +:+ url).

(** The two tests of [verify] on the parsed header: [header && typeof
    header === 'object'], and the guard of the parameter error. *)
Definition is_header_object (header : JsValue) : bool :=
  truthy header && String.eqb (typeof header) "object".

Definition header_rejected (header : JsValue) : bool :=
  negb (header_matches header) && (Object_keys_length header =? 3).

(** What [verify] does for a key that has a public key, case by case. *)
Definition verify_outline `{Collaborators}
    (key : ISchnorrSecp256k1VerificationKey2019Options)
    (data : Uint8Array.t) (signature : string) : Run bool :=
  match parse_header (before_separator ".." signature) with
  | Thrown e => mkRun [] (Thrown (HeaderParseError e))
  | Returned header =>
      if negb (is_header_object header) then mkRun [] (Thrown InvalidHeaderShape)
      else if header_rejected header
      then mkRun [ConsoleError header] (Thrown InvalidHeaderParameters)
      else
        let call := CallVerifyDetached signature (Uint8Array.elements data)
                      (publicKeyJwk key) in
        match verifyDetached signature (Uint8Array.elements data) (publicKeyJwk key) with
        | Returned _ => mkRun [call] (Returned true)
        | Thrown _ => mkRun [call] (Returned false)
        end
  end.

(** ** Sample data

    A key pair in JWK form, two encoded headers with what they decode
    to, and collaborators that answer on them; the examples below run
    the key on these. *)

Definition sample_privateKeyJwk : gmap string JsValue :=
  <["kty" := JStr "EC"]>
  (<["crv" := JStr "secp256k1"]>
  (<["x" := JStr "4xAbUxbGGFPv4qpHlPFAUJdzteUGR1lRK-CELCufU9w"]>
  (<["y" := JStr "EYcKr-YBs-bA0UVeSAkXVLOYHRRdpH1rVkNYTsKtwIA"]>
  (<["d" := JStr "rhYFsBPF9q3-uZThy7B3c4LDF_8wnozFUAEm5LLC4Zw"]>
  (<["kid" := JStr "key-1"]> ∅))))).

Definition sample_publicKeyJwk : gmap string JsValue :=
  delete "d" sample_privateKeyJwk.

Definition encoded_sign_header : string :=
  "eyJhbGciOiJTY2hub3JyRVMyNTZLIiwiYjY0IjpmYWxzZSwiY3JpdCI6WyJiNjQiXX0".

Definition encoded_wrong_alg_header : string :=
  "eyJhbGciOiJXcm9uZyIsImI2NCI6ZmFsc2UsImNyaXQiOlsiYjY0Il19".

Definition sign_header_text : string :=
  "{" +:+ quoted "alg" +:+ ":" +:+ quoted "SchnorrES256K" +:+ ","
      +:+ quoted "b64" +:+ ":false,"
      +:+ quoted "crit" +:+ ":[" +:+ quoted "b64" +:+ "]}".

Definition wrong_alg_header_text : string :=
  "{" +:+ quoted "alg" +:+ ":" +:+ quoted "Wrong" +:+ ","
      +:+ quoted "b64" +:+ ":false,"
      +:+ quoted "crit" +:+ ":[" +:+ quoted "b64" +:+ "]}".

(** The header of the tampering test of the specification. *)
Definition wrong_alg_header : JsValue :=
  JObj (<["alg" := JStr "Wrong"]>
        (<["b64" := JBool false]>
        (<["crit" := JArr [JStr "b64"]]> ∅))).

Definition sample_signature : string := encoded_sign_header +:+ "..c2lnbmF0dXJl".

Definition sample_data : Uint8Array.t :=
  Uint8Array.make [Byte.x00] [Byte.x68; Byte.x69] [Byte.xff].

Definition sample_getKid (jwk : JsValue) : string :=
  match js_get jwk "x" with
  | JStr x => "kid-of-" +:+ x
  | _ => "kid-of-nothing"
  end.

Definition sample_collaborators : Collaborators := {|
  getKid := sample_getKid;
  signDetached := λ _ _ _, Returned sample_signature;
  verifyDetached := λ signature payload _,
    if String.eqb signature sample_signature
    then Returned (JBool true)
    else Thrown (Error "Signature verification failed.");
  base64url_decode := λ s,
    if String.eqb s encoded_sign_header then Returned sign_header_text
    else if String.eqb s encoded_wrong_alg_header then Returned wrong_alg_header_text
    else Returned "";
  JSON_parse := λ text,
    if String.eqb text sign_header_text then Returned sign_header
    else if String.eqb text wrong_alg_header_text then Returned wrong_alg_header
    else Thrown (SyntaxError "Unexpected end of JSON input")
|}.

(** Collaborators that also decode and parse the headers [null], [[]],
    [["a","b","c"]] and [{"alg":"none"}]. *)
Definition none_alg_header_text : string :=
  "{" +:+ quoted "alg" +:+ ":" +:+ quoted "none" +:+ "}".

Definition three_strings_text : string :=
  "[" +:+ quoted "a" +:+ "," +:+ quoted "b" +:+ "," +:+ quoted "c" +:+ "]".

Definition more_collaborators : Collaborators := {|
  getKid := sample_getKid;
  signDetached := @signDetached sample_collaborators;
  verifyDetached := @verifyDetached sample_collaborators;
  base64url_decode := λ s,
    if String.eqb s "bnVsbA" then Returned "null"
    else if String.eqb s "W10" then Returned "[]"
    else if String.eqb s "WyJhIiwiYiIsImMiXQ" then Returned three_strings_text
    else if String.eqb s "eyJhbGciOiJub25lIn0" then Returned none_alg_header_text
    else @base64url_decode sample_collaborators s;
  JSON_parse := λ text,
    if String.eqb text "null" then Returned JNull
    else if String.eqb text "[]" then Returned (JArr [])
    else if String.eqb text three_strings_text
    then Returned (JArr [JStr "a"; JStr "b"; JStr "c"])
    else if String.eqb text none_alg_header_text
    then Returned (JObj {["alg" := JStr "none"]})
    else @JSON_parse sample_collaborators text
|}.

Definition sample_documents : ContextDocuments := {|
  did_v1 := JObj {["@context" := JObj ∅]};
  did_v0_11 := JObj {["@context" := JObj ∅]};
  security_v1 := JObj {["@context" := JObj ∅]};
  security_v2 := JObj {["@context" := JObj ∅]};
  schnorr_v1 := JObj {["@context" := JObj ∅]};
  didDoc := JObj {["id" := JStr "did:example:123"]}
|}.

Definition sample_private_only : ISchnorrSecp256k1VerificationKey2019Options :=
  {| id := None; type := None; controller := "did:example:123";
     privateKeyJwk := JObj sample_privateKeyJwk; publicKeyJwk := JUndefined |}.

Definition sample_public_only : ISchnorrSecp256k1VerificationKey2019Options :=
  {| id := None; type := None; controller := "did:example:123";
     privateKeyJwk := JUndefined; publicKeyJwk := JObj sample_publicKeyJwk |}.

(** * Properties *)

(** ** Buffers and runs *)

Lemma Buffer_from_window (data : Uint8Array.t) :
  Buffer_from (Uint8Array.buffer data) (Uint8Array.byteOffset data)
              (Uint8Array.length data)
  = Returned (Uint8Array.elements data).
Proof.
  destruct data as [pre mid post].
  unfold Buffer_from, Uint8Array.buffer, Uint8Array.byteOffset, Uint8Array.length.
  cbn [Uint8Array.before Uint8Array.elements Uint8Array.after].
  rewrite !length_app.
  destruct (Nat.ltb_spec (length pre + (length mid + length post)) (length pre)) as [Hlt|_];
    [lia|].
  destruct (Nat.ltb_spec (length pre + (length mid + length post))
              (length pre + length mid)) as [Hlt|_]; [lia|].
  f_equal. rewrite drop_app_length. apply take_app_length.
Qed.

Lemma verify_with_public_key `{Collaborators} key data signature :
  truthy (publicKeyJwk key) = true →
  verify (joseVerifierFactory key) data signature = verify_outline key data signature.
Proof.
  intros Hpk. unfold joseVerifierFactory, verify_outline. rewrite Hpk. cbn [negb verify].
  destruct (parse_header (before_separator ".." signature)) as [header|e]; [|reflexivity].
  unfold is_header_object, header_rejected.
  cbn.
  destruct (truthy header && (typeof header =? "object")%string); [|reflexivity].
  cbn [negb].
  destruct (negb (header_matches header) && (Object_keys_length header =? 3));
    [reflexivity|].
  rewrite Buffer_from_window.
  destruct (verifyDetached signature (Uint8Array.elements data) (publicKeyJwk key));
    reflexivity.
Qed.

Lemma verifier_with_public_key `{Collaborators} this data signature :
  truthy (this_publicKeyJwk this) = true →
  verify (verifier this) data signature
  = verify_outline (as_options this) data signature.
Proof. intros Hpk. unfold verifier. by apply verify_with_public_key. Qed.

Lemma header_rejected_true header :
  header_rejected header = true
  ↔ header_matches header = false ∧ Object_keys_length header = 3.
Proof.
  unfold header_rejected.
  rewrite andb_true_iff, negb_true_iff, Nat.eqb_eq. done.
Qed.

(** The five ways through [verify_outline]: the header is rejected, the
    primitive returns, the primitive throws, the header is no object,
    the header does not parse. *)
Ltac verify_cases signature :=
  unfold verify_outline;
  destruct (parse_header (before_separator ".." signature)) as [header|cause];
  [ destruct (is_header_object header) eqn:Hobj; cbn [negb];
    [ destruct (header_rejected header) eqn:Hrej;
      [ | destruct (verifyDetached _ _ _) as [result|failure] eqn:Hprim ]
    | ]
  | ];
  cbn [outcome events].

(** A header with the three claims of [sign_header], whatever else it
    holds, matches. *)
Lemma header_matches_claims (props : gmap string JsValue) :
  props !! "alg" = Some (JStr "SchnorrES256K") →
  props !! "b64" = Some (JBool false) →
  props !! "crit" = Some (JArr [JStr "b64"]) →
  header_matches (JObj props) = true.
Proof.
  intros Halg Hb64 Hcrit. unfold header_matches, js_get, own_property.
  rewrite Halg, Hb64, Hcrit. reflexivity.
Qed.

(** ** The verifier *)

(** C1. For a key with public key material, [verify] raises
    [InvalidHeaderParameters] exactly when the decoded header (an
    object) fails the parameter checks and has exactly three keys.  In
    particular the header [{alg: "Wrong", b64: false, crit: ["b64"]}]
    raises it, and a header with the three right claims plus any extra
    keys passes the validation and reaches the verification
    primitive. *)
Theorem verify_invalid_header_parameters `{Collaborators}
    (this : SchnorrSecp256k1VerificationKey2019)
    (data : Uint8Array.t) (signature : string) :
  truthy (this_publicKeyJwk this) = true →
  (outcome (verify (verifier this) data signature) = Thrown InvalidHeaderParameters
   ↔ ∃ header,
       parse_header (before_separator ".." signature) = Returned header
       ∧ is_header_object header = true
       ∧ header_matches header = false
       ∧ Object_keys_length header = 3)
  ∧ (parse_header (before_separator ".." signature) = Returned wrong_alg_header →
     outcome (verify (verifier this) data signature) = Thrown InvalidHeaderParameters)
  ∧ (∀ props : gmap string JsValue,
       props !! "alg" = Some (JStr "SchnorrES256K") →
       props !! "b64" = Some (JBool false) →
       props !! "crit" = Some (JArr [JStr "b64"]) →
       parse_header (before_separator ".." signature) = Returned (JObj props) →
       ∃ verified,
         verify (verifier this) data signature
         = mkRun [CallVerifyDetached signature (Uint8Array.elements data)
                    (this_publicKeyJwk this)]
                 (Returned verified)).
Proof.
  intros Hpk. rewrite (verifier_with_public_key _ _ _ Hpk).
  split; [|split].
  - split.
    + verify_cases signature; try discriminate.
      intros _. exists header. apply header_rejected_true in Hrej. tauto.
    + intros (header & Hparse & Hobj & Hmatch & Hkeys). unfold verify_outline.
      rewrite Hparse, Hobj. cbn [negb].
      assert (header_rejected header = true) as -> by by apply header_rejected_true.
      reflexivity.
  - intros Hparse. unfold verify_outline. rewrite Hparse. reflexivity.
  - intros props Halg Hb64 Hcrit Hparse. unfold verify_outline. rewrite Hparse.
    cbn [is_header_object truthy typeof].
    unfold header_rejected. rewrite (header_matches_claims _ Halg Hb64 Hcrit).
    cbn. destruct (verifyDetached _ _ _); eauto.
Qed.

Lemma verify_invalid_header_parameters_witness :
  truthy (this_publicKeyJwk
            (@constructor sample_collaborators sample_public_only)) = true
  ∧ outcome (verify (@verifier sample_collaborators
                       (@constructor sample_collaborators sample_public_only))
               sample_data (encoded_wrong_alg_header +:+ "..c2lnbmF0dXJl"))
    = Thrown InvalidHeaderParameters.
Proof.
  split; [reflexivity|].
  apply (@verify_invalid_header_parameters sample_collaborators
           (@constructor sample_collaborators sample_public_only)
           sample_data (encoded_wrong_alg_header +:+ "..c2lnbmF0dXJl")).
  - reflexivity.
  - vm_compute. reflexivity.
Defined.

(** C2. For a key with public key material and a header that parses,
    is an object and is not rejected, [verify] returns [true] exactly
    when the verification primitive completes without raising and
    [false] exactly when it raises; and whatever the header, the only
    errors [verify] propagates are those of parsing and validating the
    header. *)
Theorem verify_returns_boolean `{Collaborators}
    (this : SchnorrSecp256k1VerificationKey2019)
    (data : Uint8Array.t) (signature : string) :
  truthy (this_publicKeyJwk this) = true →
  (∀ header,
     parse_header (before_separator ".." signature) = Returned header →
     is_header_object header = true →
     header_rejected header = false →
     let primitive :=
       verifyDetached signature (Uint8Array.elements data) (this_publicKeyJwk this) in
     (outcome (verify (verifier this) data signature) = Returned true
      ↔ ∃ result, primitive = Returned result)
     ∧ (outcome (verify (verifier this) data signature) = Returned false
        ↔ ∃ e, primitive = Thrown e))
  ∧ (∀ e, outcome (verify (verifier this) data signature) = Thrown e →
       (∃ cause, parse_header (before_separator ".." signature) = Thrown cause
                 ∧ e = HeaderParseError cause)
       ∨ e = InvalidHeaderShape
       ∨ e = InvalidHeaderParameters).
Proof.
  intros Hpk. rewrite (verifier_with_public_key _ _ _ Hpk).
  split.
  - intros header Hparse Hobj Hrej. unfold verify_outline.
    rewrite Hparse, Hobj, Hrej. cbn [negb as_options publicKeyJwk].
    destruct (verifyDetached signature (Uint8Array.elements data)
                (this_publicKeyJwk this)) as [result|e]; cbn [outcome].
    + split; split; eauto; try discriminate. intros [e He]. discriminate.
    + split; split; eauto; try discriminate. intros [r Hr]. discriminate.
  - intros e. verify_cases signature; try discriminate; intros [= <-]; eauto.
Qed.

Lemma verify_returns_boolean_witness :
  truthy (this_publicKeyJwk
            (@constructor sample_collaborators sample_public_only)) = true
  ∧ @parse_header sample_collaborators (before_separator ".." sample_signature)
    = Returned sign_header
  ∧ is_header_object sign_header = true
  ∧ header_rejected sign_header = false
  ∧ (outcome (verify (@verifier sample_collaborators
                        (@constructor sample_collaborators sample_public_only))
                sample_data sample_signature) = Returned true
     ↔ ∃ result,
         @verifyDetached sample_collaborators sample_signature
           (Uint8Array.elements sample_data)
           (this_publicKeyJwk (@constructor sample_collaborators sample_public_only))
         = Returned result).
Proof.
  split; [reflexivity|]. split; [vm_compute; reflexivity|].
  split; [reflexivity|]. split; [reflexivity|].
  apply (proj1 (@verify_returns_boolean sample_collaborators
                  (@constructor sample_collaborators sample_public_only)
                  sample_data sample_signature eq_refl) sign_header).
  - vm_compute. reflexivity.
  - reflexivity.
  - reflexivity.
Defined.

(** ** Keys with one half missing *)

Lemma constructor_publicKeyJwk `{Collaborators} options :
  this_publicKeyJwk (constructor options)
  = if is_undefined (publicKeyJwk options)
    then JObj (delete "d" (spread (privateKeyJwk options)))
    else publicKeyJwk options.
Proof. unfold constructor. cbn. by destruct (is_undefined (publicKeyJwk options)). Qed.

Lemma constructor_privateKeyJwk `{Collaborators} options :
  this_privateKeyJwk (constructor options) = privateKeyJwk options.
Proof. unfold constructor. cbn. by destruct (is_undefined (publicKeyJwk options)). Qed.

Lemma is_undefined_true v : is_undefined v = true ↔ v = JUndefined.
Proof. destruct v; cbn; split; congruence. Qed.

(** [verify] raises [NoPublicKey] exactly for a falsy public key. *)
Lemma verify_no_public_key_iff `{Collaborators} this data signature :
  outcome (verify (verifier this) data signature) = Thrown NoPublicKey
  ↔ truthy (this_publicKeyJwk this) = false.
Proof.
  destruct (truthy (this_publicKeyJwk this)) eqn:Hpk.
  - rewrite (verifier_with_public_key _ _ _ Hpk).
    split; [|discriminate]. verify_cases signature; discriminate.
  - unfold verifier, joseVerifierFactory. cbn [as_options publicKeyJwk].
    rewrite Hpk. done.
Qed.

(** C3, as stated, fails: the constructor gives the sample key built
    from its private JWK alone a public JWK, and its verifier verifies
    the sample signature instead of raising [NoPublicKey]. *)
Lemma verify_private_only_counterexample :
  publicKeyJwk sample_private_only = JUndefined
  ∧ verify (@verifier sample_collaborators
              (@constructor sample_collaborators sample_private_only))
      sample_data sample_signature
    = mkRun [CallVerifyDetached sample_signature [Byte.x68; Byte.x69]
               (JObj sample_publicKeyJwk)]
            (Returned true)
  ∧ outcome (verify (@verifier sample_collaborators
                       (@constructor sample_collaborators sample_private_only))
               sample_data sample_signature)
    ≠ Thrown NoPublicKey.
Proof.
  split; [reflexivity|].
  assert (verify (@verifier sample_collaborators
                    (@constructor sample_collaborators sample_private_only))
            sample_data sample_signature
          = mkRun [CallVerifyDetached sample_signature [Byte.x68; Byte.x69]
                     (JObj sample_publicKeyJwk)]
                  (Returned true)) as Hrun by (vm_compute; reflexivity).
  split; [exact Hrun|]. rewrite Hrun. discriminate.
Qed.

(** C3, amended. [verify] raises [NoPublicKey], without calling the
    verification primitive, for every key whose public JWK is falsy; a
    key constructed from private key material alone is not such a key,
    its public JWK being derived, and its [verify] never raises
    [NoPublicKey]. *)
Theorem verify_no_public_key `{Collaborators}
    (data : Uint8Array.t) (signature : string) :
  (∀ this : SchnorrSecp256k1VerificationKey2019,
     truthy (this_publicKeyJwk this) = false →
     verify (verifier this) data signature = mkRun [] (Thrown NoPublicKey))
  ∧ (∀ options : ISchnorrSecp256k1VerificationKey2019Options,
       publicKeyJwk options = JUndefined →
       outcome (verify (verifier (constructor options)) data signature)
       ≠ Thrown NoPublicKey).
Proof.
  split.
  - intros this Hpk. unfold verifier, joseVerifierFactory.
    cbn [as_options publicKeyJwk]. rewrite Hpk. done.
  - intros options Hundef. rewrite verify_no_public_key_iff.
    rewrite constructor_publicKeyJwk, Hundef. cbn. discriminate.
Qed.

Lemma verify_no_public_key_witness :
  publicKeyJwk sample_private_only = JUndefined
  ∧ outcome (verify (@verifier sample_collaborators
                       (@constructor sample_collaborators sample_private_only))
               sample_data sample_signature)
    ≠ Thrown NoPublicKey.
Proof.
  split; [reflexivity|].
  apply (proj2 (@verify_no_public_key sample_collaborators
                  sample_data sample_signature) sample_private_only).
  reflexivity.
Defined.

(** C10. When [publicKeyJwk] is left out, the constructed key holds an
    object in its place, the shallow copy of [privateKeyJwk] without
    [d] (the empty object when [privateKeyJwk] is left out too); hence
    [verify] raises [NoPublicKey] only for a key constructed with a
    falsy [publicKeyJwk] other than [undefined]. *)
Theorem constructor_derives_public_key `{Collaborators}
    (options : ISchnorrSecp256k1VerificationKey2019Options) :
  (publicKeyJwk options = JUndefined →
     this_publicKeyJwk (constructor options)
     = JObj (delete "d" (spread (privateKeyJwk options)))
     ∧ truthy (this_publicKeyJwk (constructor options)) = true
     ∧ (privateKeyJwk options = JUndefined →
        this_publicKeyJwk (constructor options) = JObj ∅))
  ∧ (∀ data signature,
       outcome (verify (verifier (constructor options)) data signature)
       = Thrown NoPublicKey
       ↔ publicKeyJwk options ≠ JUndefined ∧ truthy (publicKeyJwk options) = false).
Proof.
  split.
  - intros Hundef. rewrite constructor_publicKeyJwk, Hundef. cbn [is_undefined].
    split; [done|]. split; [done|]. intros ->. cbn. by rewrite delete_empty.
  - intros data signature. rewrite verify_no_public_key_iff, constructor_publicKeyJwk.
    destruct (is_undefined (publicKeyJwk options)) eqn:Hundef.
    + apply is_undefined_true in Hundef. cbn. split; [discriminate|]. tauto.
    + split; [|tauto]. intros Hfalsy. split; [|done].
      intros Heq. apply is_undefined_true in Heq. congruence.
Qed.

Lemma constructor_derives_public_key_witness :
  publicKeyJwk sample_private_only = JUndefined
  ∧ this_publicKeyJwk (@constructor sample_collaborators sample_private_only)
    = JObj (delete "d" (spread (privateKeyJwk sample_private_only))).
Proof.
  split; [reflexivity|].
  apply (proj1 (@constructor_derives_public_key sample_collaborators
                  sample_private_only)).
  reflexivity.
Defined.

(** ** The signer *)

(** C4. For a key constructed without private key material (a falsy
    [privateKeyJwk], [undefined] when left out), [signer] is a total
    function that yields a signer, and every call of its [sign] is
    rejected with [NoPrivateKey] after no call to the signing
    primitive: the run has no event. *)
Theorem sign_no_private_key `{Collaborators}
    (options : ISchnorrSecp256k1VerificationKey2019Options) (data : Uint8Array.t) :
  truthy (privateKeyJwk options) = false →
  sign (signer (constructor options)) data = mkRun [] (Thrown NoPrivateKey).
Proof.
  intros Hsk. unfold signer, joseSignerFactory. cbn [as_options privateKeyJwk].
  rewrite constructor_privateKeyJwk, Hsk. done.
Qed.

Lemma sign_no_private_key_witness :
  truthy (privateKeyJwk sample_public_only) = false
  ∧ sign (@signer sample_collaborators
            (@constructor sample_collaborators sample_public_only)) sample_data
    = mkRun [] (Thrown NoPrivateKey).
Proof.
  split; [reflexivity|].
  apply (@sign_no_private_key sample_collaborators sample_public_only sample_data).
  reflexivity.
Defined.

(** ** Fingerprints and identifiers *)

Lemma fingerprint_constructor `{Collaborators} options :
  fingerprint (constructor options)
  = getKid (JObj (delete "kid" (spread (this_publicKeyJwk (constructor options))))).
Proof. reflexivity. Qed.

(** The identifier that the constructor assigns. *)
Lemma constructor_id `{Collaborators} options :
  this_id (constructor options)
  = or_else (id options)
      (controller options +:+ "#" +:+ fingerprint (constructor options)).
Proof.
  unfold constructor, fingerprint. cbn.
  by destruct (is_undefined (publicKeyJwk options)).
Qed.

(** C5. A key constructed from a private JWK [k] that holds [d], and
    from no public JWK, has [k] without [d] as its public key material
    (which no longer holds [d]), and its [fingerprint()] is
    [fingerprintFromPublicKey] of that material. *)
Theorem constructor_private_only `{Collaborators}
    (k : gmap string JsValue) (options : ISchnorrSecp256k1VerificationKey2019Options) :
  is_Some (k !! "d") →
  privateKeyJwk options = JObj k →
  publicKeyJwk options = JUndefined →
  this_publicKeyJwk (constructor options) = JObj (delete "d" k)
  ∧ delete "d" k !! "d" = None
  ∧ (∀ o : ISchnorrSecp256k1VerificationKey2019Options,
       publicKeyJwk o = this_publicKeyJwk (constructor options) →
       fingerprint (constructor options) = fingerprintFromPublicKey o).
Proof.
  intros _ Hsk Hpk.
  assert (this_publicKeyJwk (constructor options) = JObj (delete "d" k)) as Hderived
    by (by rewrite constructor_publicKeyJwk, Hpk, Hsk).
  split; [exact Hderived|]. split; [apply lookup_delete_eq|].
  intros o Ho. unfold fingerprintFromPublicKey, fingerprint. by rewrite Ho.
Qed.

Lemma constructor_private_only_witness :
  is_Some (sample_privateKeyJwk !! "d")
  ∧ this_publicKeyJwk (@constructor sample_collaborators sample_private_only)
    = JObj (delete "d" sample_privateKeyJwk).
Proof.
  assert (is_Some (sample_privateKeyJwk !! "d")) as Hd by (vm_compute; eauto).
  split; [exact Hd|].
  apply (@constructor_private_only sample_collaborators
           sample_privateKeyJwk sample_private_only Hd eq_refl eq_refl).
Defined.

(** [publicKeyJwk] replaced in an options record and in a key. *)
Lemma fingerprintFromPublicKey_field `{Collaborators} o1 o2 :
  publicKeyJwk o1 = publicKeyJwk o2 →
  fingerprintFromPublicKey o1 = fingerprintFromPublicKey o2.
Proof. unfold fingerprintFromPublicKey. by intros ->. Qed.

(** C6. The fingerprint is a function of the public JWK alone, and a
    [kid] in it has no influence: for an object [k], any value under
    [kid] and any choice of the other fields, the JWK [k] with that
    [kid] added, [k] itself and [k] with [kid] removed all have the
    same [fingerprintFromPublicKey], and the same instance
    [fingerprint()]. *)
Theorem fingerprint_ignores_kid `{Collaborators}
    (k : gmap string JsValue) (kid : JsValue)
    (o1 o2 : ISchnorrSecp256k1VerificationKey2019Options)
    (this1 this2 : SchnorrSecp256k1VerificationKey2019) :
  publicKeyJwk o1 = JObj (<["kid" := kid]> k) →
  publicKeyJwk o2 = JObj (delete "kid" k) →
  this_publicKeyJwk this1 = JObj (<["kid" := kid]> k) →
  this_publicKeyJwk this2 = JObj (delete "kid" k) →
  fingerprintFromPublicKey o1 = fingerprintFromPublicKey o2
  ∧ fingerprintFromPublicKey o1 = getKid (JObj (delete "kid" k))
  ∧ fingerprint this1 = fingerprint this2
  ∧ fingerprint this1 = getKid (JObj (delete "kid" k))
  ∧ (∀ o, publicKeyJwk o = JObj k →
          fingerprintFromPublicKey o = fingerprintFromPublicKey o2)
  ∧ (∀ this, this_publicKeyJwk this = JObj k → fingerprint this = fingerprint this2).
Proof.
  intros Ho1 Ho2 Ht1 Ht2. unfold fingerprintFromPublicKey, fingerprint.
  rewrite Ho1, Ho2, Ht1, Ht2. cbn [spread own_enumerable].
  rewrite delete_insert_eq, delete_delete_eq.
  repeat split; try done.
  - by intros o ->.
  - by intros this ->.
Qed.

Lemma fingerprint_ignores_kid_witness :
  let k := delete "kid" sample_publicKeyJwk in
  let o2 := {| id := None; type := None; controller := "did:example:123";
               privateKeyJwk := JUndefined; publicKeyJwk := JObj k |} in
  publicKeyJwk sample_public_only = JObj (<["kid" := JStr "key-1"]> k)
  ∧ publicKeyJwk o2 = JObj (delete "kid" k)
  ∧ @fingerprintFromPublicKey sample_collaborators sample_public_only
    = @fingerprintFromPublicKey sample_collaborators o2.
Proof.
  intros k o2.
  assert (publicKeyJwk sample_public_only = JObj (<["kid" := JStr "key-1"]> k)) as H1
    by (vm_compute; reflexivity).
  assert (publicKeyJwk o2 = JObj (delete "kid" k)) as H2 by (vm_compute; reflexivity).
  split; [exact H1|]. split; [exact H2|].
  refine (proj1 (@fingerprint_ignores_kid sample_collaborators k (JStr "key-1")
                   sample_public_only o2
                   (@constructor sample_collaborators sample_public_only)
                   (@constructor sample_collaborators o2) H1 H2 _ _)).
  - vm_compute. reflexivity.
  - vm_compute. reflexivity.
Defined.

(** C8, as stated, fails for an explicit identifier that is the empty
    string: the constructor replaces it by the default. *)
Lemma constructor_empty_id_counterexample :
  let options := {| id := Some ""; type := None; controller := "did:example:123";
                    privateKeyJwk := JUndefined;
                    publicKeyJwk := JObj sample_publicKeyJwk |} in
  this_id (@constructor sample_collaborators options)
  = "did:example:123#kid-of-4xAbUxbGGFPv4qpHlPFAUJdzteUGR1lRK-CELCufU9w"
  ∧ Some (this_id (@constructor sample_collaborators options)) ≠ id options.
Proof.
  intros options.
  assert (this_id (@constructor sample_collaborators options)
          = "did:example:123#kid-of-4xAbUxbGGFPv4qpHlPFAUJdzteUGR1lRK-CELCufU9w")
    as Hid by (vm_compute; reflexivity).
  split; [exact Hid|]. rewrite Hid. discriminate.
Qed.

(** C8, amended. With no explicit identifier, or with the empty string
    as identifier, the key's [id] is its controller, ["#"] and its
    fingerprint; an explicit identifier that is not empty is kept
    unchanged. *)
Theorem constructor_id_default `{Collaborators}
    (options : ISchnorrSecp256k1VerificationKey2019Options) :
  (id options = None ∨ id options = Some "" →
     this_id (constructor options)
     = controller options +:+ "#" +:+ fingerprint (constructor options))
  ∧ (∀ s, id options = Some s → s ≠ "" → this_id (constructor options) = s).
Proof.
  rewrite constructor_id. split.
  - by intros [-> | ->].
  - intros s -> Hne. cbn. destruct (String.eqb_spec s ""); done.
Qed.

Lemma constructor_id_default_witness :
  id sample_public_only = None
  ∧ this_id (@constructor sample_collaborators sample_public_only)
    = "did:example:123" +:+ "#"
      +:+ @fingerprint sample_collaborators
            (@constructor sample_collaborators sample_public_only).
Proof.
  split; [reflexivity|].
  apply (proj1 (@constructor_id_default sample_collaborators sample_public_only)).
  left. reflexivity.
Defined.

(** C9, as stated, fails: a public JWK that is passed in with a [d] is
    stored as it is. *)
Lemma constructor_keeps_d_counterexample :
  let options := {| id := None; type := None; controller := "did:example:123";
                    privateKeyJwk := JUndefined;
                    publicKeyJwk := JObj sample_privateKeyJwk |} in
  own_property (this_publicKeyJwk (@constructor sample_collaborators options)) "d"
  = Some (JStr "rhYFsBPF9q3-uZThy7B3c4LDF_8wnozFUAEm5LLC4Zw").
Proof. vm_compute. reflexivity. Qed.

(** C9, amended. The public key material that the constructor derives
    (when no [publicKeyJwk] is passed in) never holds [d]; a
    [publicKeyJwk] that is passed in is stored unchanged. *)
Theorem constructor_public_key_without_d `{Collaborators}
    (options : ISchnorrSecp256k1VerificationKey2019Options) :
  (publicKeyJwk options = JUndefined →
     own_property (this_publicKeyJwk (constructor options)) "d" = None
     ∧ js_get (this_publicKeyJwk (constructor options)) "d" = JUndefined)
  ∧ (publicKeyJwk options ≠ JUndefined →
     this_publicKeyJwk (constructor options) = publicKeyJwk options).
Proof.
  rewrite constructor_publicKeyJwk. split.
  - intros ->. cbn [is_undefined]. unfold js_get. cbn [own_property prototype_of].
    rewrite lookup_delete_eq. done.
  - intros Hne. destruct (is_undefined (publicKeyJwk options)) eqn:Hundef; [|done].
    by apply is_undefined_true in Hundef.
Qed.

Lemma constructor_public_key_without_d_witness :
  publicKeyJwk sample_private_only = JUndefined
  ∧ own_property
      (this_publicKeyJwk (@constructor sample_collaborators sample_private_only)) "d"
    = None.
Proof.
  split; [reflexivity|].
  apply (proj1 (@constructor_public_key_without_d sample_collaborators
                  sample_private_only)).
  reflexivity.
Defined.

(** ** The document loader *)

(** A URL of the table resolves to its document, when that document is
    truthy (as every JSON object is). *)
Lemma customLoader_table `{ContextDocuments} (url : string) (doc : JsValue) :
  contexts !! url = Some doc →
  truthy doc = true →
  customLoader url
  = Returned {| contextUrl := JNull; document := doc; documentUrl := url |}.
Proof.
  intros Hurl Hdoc. unfold customLoader, js_get. cbn [own_property].
  rewrite Hurl, Hdoc. reflexivity.
Qed.

(** A URL that names neither an entry of the table nor a member that
    the table inherits resolves to the example DID document when it is
    the example DID, with or without a fragment, and is refused
    otherwise. *)
Lemma customLoader_other `{ContextDocuments} (url : string) :
  contexts !! url = None →
  url ≠ "__proto__" →
  inherited ObjectPrototype url = None →
  customLoader url
  = if String.eqb (before_separator "#" url) "did:example:123"
    then Returned {| contextUrl := JNull; document := didDoc; documentUrl := url |}
    else Thrown (UnsupportedContextUrl url).
Proof.
  intros Hurl Hproto Hinh. unfold customLoader, js_get. cbn [own_property prototype_of].
  rewrite Hurl, Hinh. destruct (String.eqb_spec url "__proto__"); [done|].
  reflexivity.
Qed.

(** A URL that names a member that the table inherits resolves to that
    member. *)
Lemma customLoader_inherited `{ContextDocuments} (url : string) (member : JsValue) :
  contexts !! url = None →
  url ≠ "__proto__" →
  inherited ObjectPrototype url = Some member →
  truthy member = true →
  customLoader url
  = Returned {| contextUrl := JNull; document := member; documentUrl := url |}.
Proof.
  intros Hurl Hproto Hinh Hmember. unfold customLoader, js_get.
  cbn [own_property prototype_of].
  rewrite Hurl, Hinh. destruct (String.eqb_spec url "__proto__"); [done|].
  simpl. rewrite Hmember. reflexivity.
Qed.

(** The three resolutions that the specification lists. *)
Example customLoader_security_v2 :
  @customLoader sample_documents "https://w3id.org/security/v2"
  = Returned {| contextUrl := JNull;
                document := @security_v2 sample_documents;
                documentUrl := "https://w3id.org/security/v2" |}.
Proof. vm_compute. reflexivity. Qed.

Example customLoader_did_fragment :
  @customLoader sample_documents "did:example:123#key-1"
  = Returned {| contextUrl := JNull;
                document := @didDoc sample_documents;
                documentUrl := "did:example:123#key-1" |}.
Proof. vm_compute. reflexivity. Qed.

Example customLoader_unknown :
  @customLoader sample_documents "https://unknown.example/ctx"
  = Thrown (UnsupportedContextUrl "https://unknown.example/ctx").
Proof. vm_compute. reflexivity. Qed.

(** C7. The table is an object literal, and [contexts[url]] also finds
    what the literal inherits from [Object.prototype].  For the URL
    ["toString"], which is no entry of the table and is not the example
    DID, the loader does not raise: it answers with the inherited
    function as the document. *)
Theorem customLoader_inherited_member `{ContextDocuments} :
  contexts !! "toString" = None
  ∧ before_separator "#" "toString" ≠ "did:example:123"
  ∧ customLoader "toString"
    = Returned {| contextUrl := JNull;
                  document := JFunction "Object.prototype.toString";
                  documentUrl := "toString" |}
  ∧ customLoader "toString" ≠ Thrown (UnsupportedContextUrl "toString").
Proof.
  assert (contexts !! "toString" = None) as Hown.
  { unfold contexts, schnorr_v1_url. by rewrite !lookup_insert_ne, lookup_empty. }
  split; [exact Hown|]. split; [discriminate|].
  assert (customLoader "toString"
          = Returned {| contextUrl := JNull;
                        document := JFunction "Object.prototype.toString";
                        documentUrl := "toString" |}) as Hrun.
  { unfold customLoader, js_get. cbn [own_property]. rewrite Hown. reflexivity. }
  split; [exact Hrun|]. rewrite Hrun. discriminate.
Qed.

(** * Further properties of the signer and the verifier *)

Lemma sign_with_key `{Collaborators} key data :
  truthy (privateKeyJwk key) = true →
  sign (joseSignerFactory key) data
  = mkRun [CallSignDetached (Uint8Array.elements data) (privateKeyJwk key) sign_header]
          (signDetached (Uint8Array.elements data) (privateKeyJwk key) sign_header).
Proof.
  intros Hsk. unfold joseSignerFactory. rewrite Hsk. cbn [negb sign].
  rewrite Buffer_from_window.
  destruct (signDetached _ _ _) eqn:Hprim; cbn; rewrite Hprim; reflexivity.
Qed.

(** X1. The signer of a key that has a private JWK makes one call to the
    signing primitive, on the bytes of the window of [data] (not on
    the whole buffer under it), the private JWK and the fixed header,
    and completes as that call does: the signature when it returns,
    its error when it throws. *)
Theorem sign_with_private_key `{Collaborators}
    (this : SchnorrSecp256k1VerificationKey2019) (data : Uint8Array.t) :
  truthy (this_privateKeyJwk this) = true →
  sign (signer this) data
  = mkRun [CallSignDetached (Uint8Array.elements data) (this_privateKeyJwk this)
             sign_header]
          (signDetached (Uint8Array.elements data) (this_privateKeyJwk this)
             sign_header).
Proof.
  intros Hsk. unfold signer. by rewrite sign_with_key.
Qed.

Lemma sign_with_private_key_witness :
  truthy (this_privateKeyJwk
            (@constructor sample_collaborators sample_private_only)) = true
  ∧ outcome (sign (@signer sample_collaborators
                     (@constructor sample_collaborators sample_private_only))
               sample_data)
    = Returned sample_signature.
Proof.
  split; [reflexivity|].
  rewrite (@sign_with_private_key sample_collaborators
             (@constructor sample_collaborators sample_private_only)
             sample_data eq_refl).
  reflexivity.
Defined.

(** X2. Signing and then verifying.  When [sign] resolves to a signature
    whose part before [".."] decodes to the header that [sign]
    attaches, that signature is what the signing primitive returned on
    the bytes of [data], and the verifier of the same key accepts the
    header, hands the signature with those same bytes and the public
    JWK to the verification primitive, and returns [true] exactly when
    that primitive does not throw. *)
Theorem sign_then_verify `{Collaborators}
    (this : SchnorrSecp256k1VerificationKey2019) (data : Uint8Array.t)
    (signature : string) :
  truthy (this_privateKeyJwk this) = true →
  truthy (this_publicKeyJwk this) = true →
  outcome (sign (signer this) data) = Returned signature →
  parse_header (before_separator ".." signature) = Returned sign_header →
  signDetached (Uint8Array.elements data) (this_privateKeyJwk this) sign_header
  = Returned signature
  ∧ events (verify (verifier this) data signature)
    = [CallVerifyDetached signature (Uint8Array.elements data) (this_publicKeyJwk this)]
  ∧ (outcome (verify (verifier this) data signature) = Returned true
     ↔ ∃ result,
         verifyDetached signature (Uint8Array.elements data) (this_publicKeyJwk this)
         = Returned result)
  ∧ (outcome (verify (verifier this) data signature) = Returned false
     ↔ ∃ e,
         verifyDetached signature (Uint8Array.elements data) (this_publicKeyJwk this)
         = Thrown e).
Proof.
  intros Hsk Hpk Hsign Hparse. unfold signer in Hsign.
  rewrite sign_with_key in Hsign by done. cbn [outcome as_options privateKeyJwk] in Hsign.
  split; [exact Hsign|]. clear Hsign.
  rewrite (verifier_with_public_key _ _ _ Hpk).
  unfold verify_outline. rewrite Hparse.
  change (is_header_object sign_header) with true.
  change (header_rejected sign_header) with false.
  cbn [negb as_options publicKeyJwk].
  destruct (verifyDetached signature (Uint8Array.elements data)
              (this_publicKeyJwk this)) as [result|e]; cbn [outcome events].
  - split; [done|]. split; split; eauto; try discriminate. intros [e He]. discriminate.
  - split; [done|]. split; split; eauto; try discriminate. intros [r Hr]. discriminate.
Qed.

Lemma sign_then_verify_witness :
  let key :=
    @constructor sample_collaborators
      {| id := None; type := None; controller := "did:example:123";
         privateKeyJwk := JObj sample_privateKeyJwk;
         publicKeyJwk := JObj sample_publicKeyJwk |} in
  outcome (sign (@signer sample_collaborators key) sample_data)
  = Returned sample_signature
  ∧ events (verify (@verifier sample_collaborators key) sample_data sample_signature)
    = [CallVerifyDetached sample_signature (Uint8Array.elements sample_data)
         (this_publicKeyJwk key)].
Proof.
  intros key.
  assert (outcome (sign (@signer sample_collaborators key) sample_data)
          = Returned sample_signature) as Hsign by (vm_compute; reflexivity).
  assert (@parse_header sample_collaborators (before_separator ".." sample_signature)
          = Returned sign_header) as Hparse by (vm_compute; reflexivity).
  split; [exact Hsign|].
  exact (proj1 (proj2 (@sign_then_verify sample_collaborators key sample_data
                         sample_signature eq_refl eq_refl Hsign Hparse))).
Defined.

(** X3. A header segment that does not decode or does not parse: [verify]
    is rejected with the parse error, which carries the cause, and
    nothing is logged or called; and [verify] is rejected with a parse
    error in this case only. *)
Theorem verify_header_parse_error `{Collaborators}
    (this : SchnorrSecp256k1VerificationKey2019)
    (data : Uint8Array.t) (signature : string) :
  truthy (this_publicKeyJwk this) = true →
  (∀ cause,
     parse_header (before_separator ".." signature) = Thrown cause →
     verify (verifier this) data signature = mkRun [] (Thrown (HeaderParseError cause)))
  ∧ (∀ cause,
       outcome (verify (verifier this) data signature) = Thrown (HeaderParseError cause) →
       ∃ cause', parse_header (before_separator ".." signature) = Thrown cause').
Proof.
  intros Hpk. rewrite (verifier_with_public_key _ _ _ Hpk). split.
  - intros cause Hparse. unfold verify_outline. by rewrite Hparse.
  - intros reported. verify_cases signature; try discriminate. eauto.
Qed.

Lemma verify_header_parse_error_witness :
  truthy (this_publicKeyJwk
            (@constructor sample_collaborators sample_public_only)) = true
  ∧ verify (@verifier sample_collaborators
              (@constructor sample_collaborators sample_public_only))
      sample_data "not-a-header..c2lnbmF0dXJl"
    = mkRun [] (Thrown (HeaderParseError (SyntaxError "Unexpected end of JSON input"))).
Proof.
  split; [reflexivity|].
  apply (proj1 (@verify_header_parse_error sample_collaborators
                  (@constructor sample_collaborators sample_public_only)
                  sample_data "not-a-header..c2lnbmF0dXJl" eq_refl)).
  vm_compute. reflexivity.
Defined.

(** The values that pass [header && typeof header === 'object']:
    objects and arrays (and the built-in prototype objects). *)
Lemma is_header_object_true header :
  is_header_object header = true
  ↔ (∃ props, header = JObj props) ∨ (∃ items, header = JArr items)
    ∨ (∃ proto, header = JPrototype proto).
Proof.
  split.
  - unfold is_header_object.
    destruct header; cbn [typeof String.eqb Ascii.eqb Bool.eqb];
      rewrite ?andb_false_r; try discriminate; eauto.
  - intros [[? ->]|[[? ->]|[? ->]]]; reflexivity.
Qed.

(** X4. A header that parses to [null], a boolean, a number or a string:
    [verify] is rejected with the invalid header error before anything
    is logged or called, and it is rejected with that error only for a
    parsed header that is no object. *)
Theorem verify_header_not_object `{Collaborators}
    (this : SchnorrSecp256k1VerificationKey2019)
    (data : Uint8Array.t) (signature : string) :
  truthy (this_publicKeyJwk this) = true →
  (∀ header,
     parse_header (before_separator ".." signature) = Returned header →
     (header = JNull ∨ (∃ b, header = JBool b) ∨ (∃ n, header = JNum n)
      ∨ (∃ s, header = JStr s)) →
     verify (verifier this) data signature = mkRun [] (Thrown InvalidHeaderShape))
  ∧ (outcome (verify (verifier this) data signature) = Thrown InvalidHeaderShape
     ↔ ∃ header,
         parse_header (before_separator ".." signature) = Returned header
         ∧ is_header_object header = false).
Proof.
  intros Hpk. rewrite (verifier_with_public_key _ _ _ Hpk). split.
  - intros header Hparse Hprim. unfold verify_outline. rewrite Hparse.
    assert (is_header_object header = false) as ->; [|done].
    destruct (is_header_object header) eqn:Hobj; [|done].
    apply is_header_object_true in Hobj.
    destruct Hprim as [->|[[? ->]|[[? ->]|[? ->]]]];
      destruct Hobj as [[? ?]|[[? ?]|[? ?]]]; discriminate.
  - split.
    + verify_cases signature; try discriminate. eauto.
    + intros (header & Hparse & Hobj). unfold verify_outline.
      by rewrite Hparse, Hobj.
Qed.

Lemma verify_header_not_object_witness :
  truthy (this_publicKeyJwk
            (@constructor more_collaborators sample_public_only)) = true
  ∧ @parse_header more_collaborators (before_separator ".." "bnVsbA..c2lnbmF0dXJl")
    = Returned JNull
  ∧ verify (@verifier more_collaborators
              (@constructor more_collaborators sample_public_only))
      sample_data "bnVsbA..c2lnbmF0dXJl"
    = mkRun [] (Thrown InvalidHeaderShape).
Proof.
  assert (@parse_header more_collaborators (before_separator ".." "bnVsbA..c2lnbmF0dXJl")
          = Returned JNull) as Hparse by (vm_compute; reflexivity).
  split; [reflexivity|]. split; [exact Hparse|].
  apply (proj1 (@verify_header_not_object more_collaborators
                  (@constructor more_collaborators sample_public_only)
                  sample_data "bnVsbA..c2lnbmF0dXJl" eq_refl) JNull Hparse).
  left. reflexivity.
Defined.

(** X5. What a call of [verify] does to the outside world.  It resolves,
    to some boolean, exactly when it has called the verification
    primitive, which it does once, on the signature as given, the
    bytes of the window of [data] and the public JWK of the key; every
    other call is rejected, after no event at all or, for the header
    parameter error only, after the header was written to the console.
    [verify] never calls the signing primitive. *)
Theorem verify_events `{Collaborators}
    (this : SchnorrSecp256k1VerificationKey2019)
    (data : Uint8Array.t) (signature : string) :
  let run := verify (verifier this) data signature in
  (∃ verified,
     run = mkRun [CallVerifyDetached signature (Uint8Array.elements data)
                    (this_publicKeyJwk this)]
                 (Returned verified))
  ∨ (∃ header,
       parse_header (before_separator ".." signature) = Returned header
       ∧ run = mkRun [ConsoleError header] (Thrown InvalidHeaderParameters))
  ∨ (∃ e, run = mkRun [] (Thrown e) ∧ e ≠ InvalidHeaderParameters).
Proof.
  intros run. subst run.
  destruct (truthy (this_publicKeyJwk this)) eqn:Hpk.
  - rewrite (verifier_with_public_key _ _ _ Hpk).
    verify_cases signature; cbn [as_options publicKeyJwk];
      [ right; left; eauto | left; eauto | left; eauto
      | right; right; eexists; split; [done|discriminate]
      | right; right; eexists; split; [done|discriminate] ].
  - right. right. exists NoPublicKey. split; [|discriminate].
    unfold verifier, joseVerifierFactory. cbn [as_options publicKeyJwk].
    by rewrite Hpk.
Qed.

(** X6. An object header whose number of keys is not three is accepted
    whatever it holds: [verify] goes on to the verification primitive,
    and resolves, even when [alg], [b64] or [crit] are wrong or
    missing. *)
Theorem verify_accepts_other_key_counts `{Collaborators}
    (this : SchnorrSecp256k1VerificationKey2019)
    (data : Uint8Array.t) (signature : string) (props : gmap string JsValue) :
  truthy (this_publicKeyJwk this) = true →
  parse_header (before_separator ".." signature) = Returned (JObj props) →
  size props ≠ 3 →
  ∃ verified,
    verify (verifier this) data signature
    = mkRun [CallVerifyDetached signature (Uint8Array.elements data)
               (this_publicKeyJwk this)]
            (Returned verified).
Proof.
  intros Hpk Hparse Hsize. rewrite (verifier_with_public_key _ _ _ Hpk).
  unfold verify_outline. rewrite Hparse. cbn [is_header_object truthy typeof].
  cbn [String.eqb Ascii.eqb Bool.eqb andb negb].
  assert (header_rejected (JObj props) = false) as ->.
  { unfold header_rejected, Object_keys_length. cbn [own_enumerable].
    apply andb_false_iff. right. by apply Nat.eqb_neq. }
  cbn [as_options publicKeyJwk]. destruct (verifyDetached _ _ _); eauto.
Qed.

Lemma verify_accepts_other_key_counts_witness :
  let key := @constructor more_collaborators sample_public_only in
  let signature := "eyJhbGciOiJub25lIn0..c2lnbmF0dXJl" in
  @parse_header more_collaborators (before_separator ".." signature)
  = Returned (JObj {["alg" := JStr "none"]})
  ∧ ∃ verified,
      verify (@verifier more_collaborators key) sample_data signature
      = mkRun [CallVerifyDetached signature (Uint8Array.elements sample_data)
                 (this_publicKeyJwk key)]
              (Returned verified).
Proof.
  intros key signature.
  assert (@parse_header more_collaborators (before_separator ".." signature)
          = Returned (JObj {["alg" := JStr "none"]})) as Hparse
    by (vm_compute; reflexivity).
  split; [exact Hparse|].
  apply (@verify_accepts_other_key_counts more_collaborators key sample_data
           signature {["alg" := JStr "none"]} eq_refl Hparse).
  vm_compute. discriminate.
Defined.

(** The decimal rendering of a number never starts with a character
    that is no digit. *)
Lemma pretty_N_go_ne_letter (c : Ascii.ascii) (rest : string) (x : N) (s : string) :
  (∀ d, pretty_N_char d ≠ c) →
  s ≠ String c rest →
  pretty_N_go x s ≠ String c rest.
Proof.
  intros Hc. revert s. induction (N.lt_wf_0 x) as [x _ IH]; intros s Hs.
  assert (x = 0 ∨ 0 < x)%N as [->|Hpos] by lia.
  - by rewrite pretty_N_go_0.
  - rewrite pretty_N_go_step by done. apply IH.
    { by apply N.div_lt. }
    intros [= Hchar _]. by apply Hc in Hchar.
Qed.

Lemma pretty_nat_ne_letter (c : Ascii.ascii) (rest : string) (i : nat) :
  (∀ d, pretty_N_char d ≠ c) →
  pretty i ≠ String c rest.
Proof.
  intros Hc. unfold pretty, pretty_nat, pretty, pretty_N.
  case_decide.
  - intros [= Hchar _]. by apply (Hc 0%N).
  - apply pretty_N_go_ne_letter; [done|discriminate].
Qed.

Lemma array_entries_keys (items : list JsValue) :
  (imap (λ i x, (pretty i, x)) items).*1 = pretty <$> seq 0 (length items).
Proof.
  rewrite fmap_imap. rewrite <-imap_seq_0. by apply imap_ext.
Qed.

(** An array has as many keys as elements. *)
Lemma array_entries_size (items : list JsValue) :
  size (array_entries items) = length items.
Proof.
  unfold array_entries. rewrite map_size_list_to_map.
  - apply length_imap.
  - rewrite array_entries_keys. apply NoDup_fmap_2; [apply _|apply NoDup_seq].
Qed.

(** No index is spelled [alg]. *)
Lemma array_entries_alg (items : list JsValue) :
  array_entries items !! "alg" = None.
Proof.
  unfold array_entries. apply not_elem_of_list_to_map.
  rewrite array_entries_keys. intros (i & Hi & _)%list_elem_of_fmap.
  symmetry in Hi. revert Hi. apply pretty_nat_ne_letter.
  intros d. unfold pretty_N_char. by repeat case_match.
Qed.

Lemma header_matches_array (items : list JsValue) :
  header_matches (JArr items) = false.
Proof.
  unfold header_matches, js_get. cbn [own_property String.eqb Ascii.eqb Bool.eqb].
  rewrite array_entries_alg. reflexivity.
Qed.

(** X7. A header that is a JSON array is taken for an object.  With
    exactly three elements it is rejected with the header parameter
    error; with any other number of elements it is accepted, and
    [verify] goes on to the verification primitive. *)
Theorem verify_array_header `{Collaborators}
    (this : SchnorrSecp256k1VerificationKey2019)
    (data : Uint8Array.t) (signature : string) (items : list JsValue) :
  truthy (this_publicKeyJwk this) = true →
  parse_header (before_separator ".." signature) = Returned (JArr items) →
  (length items = 3 →
   verify (verifier this) data signature
   = mkRun [ConsoleError (JArr items)] (Thrown InvalidHeaderParameters))
  ∧ (length items ≠ 3 →
     ∃ verified,
       verify (verifier this) data signature
       = mkRun [CallVerifyDetached signature (Uint8Array.elements data)
                  (this_publicKeyJwk this)]
               (Returned verified)).
Proof.
  intros Hpk Hparse. rewrite (verifier_with_public_key _ _ _ Hpk).
  unfold verify_outline. rewrite Hparse.
  change (is_header_object (JArr items)) with true. cbn [negb].
  unfold header_rejected, Object_keys_length. cbn [own_enumerable].
  rewrite header_matches_array, array_entries_size. cbn [negb andb].
  split.
  - intros ->. reflexivity.
  - intros Hlen. apply Nat.eqb_neq in Hlen. rewrite Hlen.
    cbn [as_options publicKeyJwk]. destruct (verifyDetached _ _ _); eauto.
Qed.

Lemma verify_array_header_witness :
  let key := @constructor more_collaborators sample_public_only in
  @parse_header more_collaborators (before_separator ".." "WyJhIiwiYiIsImMiXQ..c2ln")
  = Returned (JArr [JStr "a"; JStr "b"; JStr "c"])
  ∧ verify (@verifier more_collaborators key) sample_data "WyJhIiwiYiIsImMiXQ..c2ln"
    = mkRun [ConsoleError (JArr [JStr "a"; JStr "b"; JStr "c"])]
            (Thrown InvalidHeaderParameters)
  ∧ ∃ verified,
      verify (@verifier more_collaborators key) sample_data "W10..c2ln"
      = mkRun [CallVerifyDetached "W10..c2ln" (Uint8Array.elements sample_data)
                 (this_publicKeyJwk key)]
              (Returned verified).
Proof.
  intros key.
  assert (@parse_header more_collaborators
            (before_separator ".." "WyJhIiwiYiIsImMiXQ..c2ln")
          = Returned (JArr [JStr "a"; JStr "b"; JStr "c"])) as Hthree
    by (vm_compute; reflexivity).
  assert (@parse_header more_collaborators (before_separator ".." "W10..c2ln")
          = Returned (JArr [])) as Hnone by (vm_compute; reflexivity).
  split; [exact Hthree|]. split.
  - apply (proj1 (@verify_array_header more_collaborators key sample_data
                    "WyJhIiwiYiIsImMiXQ..c2ln" _ eq_refl Hthree)).
    reflexivity.
  - apply (proj2 (@verify_array_header more_collaborators key sample_data
                    "W10..c2ln" _ eq_refl Hnone)).
    cbn. discriminate.
Defined.

(** * Further properties of the key *)

Lemma or_else_nonempty (a : option string) (b : string) :
  b ≠ "" → or_else a b ≠ "".
Proof.
  intros Hb. destruct a as [s|]; cbn; [|done].
  by destruct (String.eqb_spec s "").
Qed.

Lemma or_else_Some_nonempty (s b : string) : s ≠ "" → or_else (Some s) b = s.
Proof. intros Hs. cbn. by destruct (String.eqb_spec s ""). Qed.

Lemma default_id_nonempty (controller fingerprint : string) :
  controller +:+ "#" +:+ fingerprint ≠ "".
Proof. by destruct controller. Qed.

Lemma constructor_type `{Collaborators} options :
  this_type (constructor options)
  = or_else (type options) "SchnorrSecp256k1VerificationKey2019".
Proof. unfold constructor. cbn. by destruct (is_undefined (publicKeyJwk options)). Qed.

Lemma constructor_controller `{Collaborators} options :
  this_controller (constructor options) = controller options.
Proof. unfold constructor. cbn. by destruct (is_undefined (publicKeyJwk options)). Qed.

Lemma constructor_id_nonempty `{Collaborators} options :
  this_id (constructor options) ≠ "".
Proof. rewrite constructor_id. apply or_else_nonempty, default_id_nonempty. Qed.

Lemma constructor_type_nonempty `{Collaborators} options :
  this_type (constructor options) ≠ "".
Proof. rewrite constructor_type. by apply or_else_nonempty. Qed.

Lemma constructor_publicKeyJwk_defined `{Collaborators} options :
  is_undefined (this_publicKeyJwk (constructor options)) = false.
Proof.
  rewrite constructor_publicKeyJwk.
  by destruct (is_undefined (publicKeyJwk options)) eqn:Hundef.
Qed.

(** X8. What every constructed key satisfies: its [id] and its [type] are
    not empty, its public JWK is not [undefined], and its controller
    and private JWK are those of the options. *)
Theorem constructor_invariants `{Collaborators}
    (options : ISchnorrSecp256k1VerificationKey2019Options) :
  this_id (constructor options) ≠ ""
  ∧ this_type (constructor options) ≠ ""
  ∧ this_publicKeyJwk (constructor options) ≠ JUndefined
  ∧ this_controller (constructor options) = controller options
  ∧ this_privateKeyJwk (constructor options) = privateKeyJwk options.
Proof.
  split; [|split; [|split; [|split]]].
  - apply constructor_id_nonempty.
  - apply constructor_type_nonempty.
  - intros Heq. pose proof (constructor_publicKeyJwk_defined options) as Hdef.
    by rewrite Heq in Hdef.
  - apply constructor_controller.
  - apply constructor_privateKeyJwk.
Qed.

(** X9. The type of a key is the one of the options, unless that is left
    out or empty: then it is the name of the suite. *)
Theorem constructor_type_default `{Collaborators}
    (options : ISchnorrSecp256k1VerificationKey2019Options) :
  (type options = None ∨ type options = Some "" →
     this_type (constructor options) = "SchnorrSecp256k1VerificationKey2019")
  ∧ (∀ s, type options = Some s → s ≠ "" → this_type (constructor options) = s).
Proof.
  assert (this_type (constructor options)
          = or_else (type options) "SchnorrSecp256k1VerificationKey2019") as ->.
  { unfold constructor. cbn. by destruct (is_undefined (publicKeyJwk options)). }
  split.
  - by intros [-> | ->].
  - intros s -> Hs. by apply or_else_Some_nonempty.
Qed.

Lemma constructor_type_default_witness :
  type sample_public_only = None
  ∧ this_type (@constructor sample_collaborators sample_public_only)
    = "SchnorrSecp256k1VerificationKey2019".
Proof.
  split; [reflexivity|].
  apply (proj1 (@constructor_type_default sample_collaborators sample_public_only)).
  left. reflexivity.
Defined.

(** X10. Constructing a key from a constructed key gives the same key back,
    and so does importing it with [from], which makes no call and is
    never rejected. *)
Theorem constructor_of_key `{Collaborators}
    (options : ISchnorrSecp256k1VerificationKey2019Options) :
  constructor (as_options (constructor options)) = constructor options
  ∧ from (as_options (constructor options)) = mkRun [] (Returned (constructor options)).
Proof.
  assert (constructor (as_options (constructor options)) = constructor options) as Hfix.
  { pose proof (constructor_id_nonempty options) as Hid.
    pose proof (constructor_type_nonempty options) as Htype.
    pose proof (constructor_publicKeyJwk_defined options) as Hpk.
    destruct (constructor options) as [i t c sk pk] eqn:Hkey. cbn in Hid, Htype, Hpk.
    unfold constructor at 1. unfold as_options, fingerprint.
    cbn [id type controller privateKeyJwk publicKeyJwk this_id this_type
         this_controller this_privateKeyJwk this_publicKeyJwk].
    rewrite Hpk.
    cbn [this_id this_type this_controller this_privateKeyJwk this_publicKeyJwk].
    by rewrite !or_else_Some_nonempty. }
  split; [exact Hfix|]. unfold from. by rewrite Hfix.
Qed.

(** X11. The default identifier does not depend on a [kid] in the public
    JWK: two keys with the same controller and no explicit [id], whose
    public JWKs differ only in that one holds a [kid], have the same
    [id]. *)
Theorem default_id_ignores_kid `{Collaborators}
    (o1 o2 : ISchnorrSecp256k1VerificationKey2019Options)
    (k : gmap string JsValue) (kid : JsValue) :
  id o1 = None → id o2 = None →
  controller o1 = controller o2 →
  publicKeyJwk o1 = JObj (<["kid" := kid]> k) →
  publicKeyJwk o2 = JObj (delete "kid" k) →
  this_id (constructor o1) = this_id (constructor o2)
  ∧ this_id (constructor o1)
    = controller o1 +:+ "#" +:+ getKid (JObj (delete "kid" k)).
Proof.
  intros Hid1 Hid2 Hc Hpk1 Hpk2.
  rewrite !constructor_id, Hid1, Hid2, Hc. cbn [or_else].
  rewrite !fingerprint_constructor, !constructor_publicKeyJwk, Hpk1, Hpk2.
  cbn [is_undefined spread own_enumerable].
  by rewrite delete_insert_eq, delete_delete_eq.
Qed.

Lemma default_id_ignores_kid_witness :
  let k := delete "kid" sample_publicKeyJwk in
  let o2 := {| id := None; type := None; controller := "did:example:123";
               privateKeyJwk := JUndefined; publicKeyJwk := JObj k |} in
  publicKeyJwk sample_public_only = JObj (<["kid" := JStr "key-1"]> k)
  ∧ this_id (@constructor sample_collaborators sample_public_only)
    = this_id (@constructor sample_collaborators o2).
Proof.
  intros k o2.
  assert (publicKeyJwk sample_public_only = JObj (<["kid" := JStr "key-1"]> k)) as H1
    by (vm_compute; reflexivity).
  assert (publicKeyJwk o2 = JObj (delete "kid" k)) as H2 by (vm_compute; reflexivity).
  split; [exact H1|].
  exact (proj1 (@default_id_ignores_kid sample_collaborators sample_public_only o2
                  k (JStr "key-1") eq_refl eq_refl eq_refl H1 H2)).
Defined.

(** X12. Dropping the private half.  The key made from the controller and
    the public JWK of a constructed key, without its private JWK, has
    the same [id], [type], controller and public JWK, whether or not
    the [id] was a default; it cannot sign. *)
Theorem constructor_public_half `{Collaborators}
    (options : ISchnorrSecp256k1VerificationKey2019Options) (data : Uint8Array.t) :
  let key := constructor options in
  let public :=
    constructor {| id := id options; type := type options;
                   controller := controller options;
                   privateKeyJwk := JUndefined;
                   publicKeyJwk := this_publicKeyJwk key |} in
  this_id public = this_id key
  ∧ this_type public = this_type key
  ∧ this_controller public = this_controller key
  ∧ this_publicKeyJwk public = this_publicKeyJwk key
  ∧ this_privateKeyJwk public = JUndefined
  ∧ sign (signer public) data = mkRun [] (Thrown NoPrivateKey).
Proof.
  intros key public. subst public key.
  pose proof (constructor_publicKeyJwk_defined options) as Hdef.
  set (half := {| id := id options; type := type options;
                  controller := controller options;
                  privateKeyJwk := JUndefined;
                  publicKeyJwk := this_publicKeyJwk (constructor options) |}).
  assert (this_publicKeyJwk (constructor half)
          = this_publicKeyJwk (constructor options)) as Hsame.
  { rewrite (constructor_publicKeyJwk half). cbn [half publicKeyJwk]. by rewrite Hdef. }
  split; [|split; [|split; [|split; [exact Hsame|split]]]].
  - rewrite (constructor_id half), (constructor_id options). cbn [half id controller].
    by rewrite (fingerprint_constructor half), (fingerprint_constructor options), Hsame.
  - by rewrite (constructor_type half), (constructor_type options).
  - by rewrite (constructor_controller half), (constructor_controller options).
  - by rewrite constructor_privateKeyJwk.
  - unfold signer, joseSignerFactory. cbn [as_options privateKeyJwk].
    by rewrite constructor_privateKeyJwk.
Qed.

(** * The public node *)

(** X13. [addEncodedPublicKey] returns the object it was given, with the
    public JWK of the key under [publicKeyJwk], whatever was there
    before; it touches no other property of that object and no other
    object, and doing it twice is doing it once. *)
Theorem addEncodedPublicKey_assigns
    (this : SchnorrSecp256k1VerificationKey2019)
    (publicKeyNode : nat) (store : gmap nat (gmap string JsValue))
    (props : gmap string JsValue) :
  store !! publicKeyNode = Some props →
  let after := (addEncodedPublicKey this publicKeyNode store).1 in
  (addEncodedPublicKey this publicKeyNode store).2 = publicKeyNode
  ∧ after !! publicKeyNode = Some (<["publicKeyJwk" := this_publicKeyJwk this]> props)
  ∧ (∀ p, p ≠ "publicKeyJwk" →
          (<["publicKeyJwk" := this_publicKeyJwk this]> props) !! p = props !! p)
  ∧ (∀ other, other ≠ publicKeyNode → after !! other = store !! other)
  ∧ addEncodedPublicKey this publicKeyNode after = (after, publicKeyNode).
Proof.
  intros Hnode after. subst after. unfold addEncodedPublicKey. cbn [fst snd].
  split; [done|]. split; [by rewrite lookup_alter_eq, Hnode|].
  split; [by intros p Hp; rewrite lookup_insert_ne|].
  split; [by intros other Hother; rewrite lookup_alter_ne|].
  f_equal. apply map_eq. intros r. destruct (decide (r = publicKeyNode)) as [->|Hne].
  - rewrite !lookup_alter_eq, Hnode. cbn. by rewrite insert_insert_eq.
  - by rewrite !lookup_alter_ne.
Qed.

Lemma addEncodedPublicKey_assigns_witness :
  let key := @constructor sample_collaborators sample_private_only in
  let store : gmap nat (gmap string JsValue) :=
    {[ 0 := {[ "id" := JStr "did:example:123#key-1" ]} ]} in
  store !! 0 = Some {[ "id" := JStr "did:example:123#key-1" ]}
  ∧ (addEncodedPublicKey key 0 store).2 = 0.
Proof.
  intros key store.
  assert (store !! 0 = Some {[ "id" := JStr "did:example:123#key-1" ]}) as Hnode
    by (vm_compute; reflexivity).
  split; [exact Hnode|].
  exact (proj1 (addEncodedPublicKey_assigns key 0 store _ Hnode)).
Defined.

(** X14. [publicNode] returns a new object and leaves every object of the
    store as it was.  The new object holds the [id], the [type] and the
    public JWK of the key, its controller when that is not empty, and
    nothing else: in particular no private JWK. *)
Theorem publicNode_contents
    (this : SchnorrSecp256k1VerificationKey2019)
    (store : gmap nat (gmap string JsValue)) :
  let after := (publicNode this store).1 in
  let node := (publicNode this store).2 in
  store !! node = None
  ∧ (∀ other, other ≠ node → after !! other = store !! other)
  ∧ ∃ props,
      after !! node = Some props
      ∧ props !! "id" = Some (JStr (this_id this))
      ∧ props !! "type" = Some (JStr (this_type this))
      ∧ props !! "publicKeyJwk" = Some (this_publicKeyJwk this)
      ∧ props !! "controller"
        = (if String.eqb (this_controller this) "" then None
           else Some (JStr (this_controller this)))
      ∧ (∀ p, p ≠ "id" → p ≠ "type" → p ≠ "publicKeyJwk" → p ≠ "controller" →
              props !! p = None).
Proof.
  intros after node. subst after node.
  unfold publicNode, addEncodedPublicKey. cbn [fst snd truthy].
  set (node := fresh (dom store)).
  assert (store !! node = None) as Hfresh.
  { apply not_elem_of_dom. apply is_fresh. }
  split; [exact Hfresh|].
  destruct (String.eqb (this_controller this) "") eqn:Hc; cbn [negb].
  - split.
    { intros other Hother. by rewrite lookup_alter_ne, lookup_insert_ne. }
    eexists. split; [by rewrite lookup_alter_eq, lookup_insert_eq|].
    repeat split; try by simplify_map_eq.
    intros p ? ? ? ?. by simplify_map_eq.
  - split.
    { intros other Hother. by rewrite !lookup_alter_ne, lookup_insert_ne. }
    eexists. split; [by rewrite !lookup_alter_eq, lookup_insert_eq|].
    repeat split; try by simplify_map_eq.
    intros p ? ? ? ?. by simplify_map_eq.
Qed.

Lemma publicNode_publicKeyJwk
    (this : SchnorrSecp256k1VerificationKey2019)
    (store : gmap nat (gmap string JsValue)) :
  ∃ props,
    (publicNode this store).1 !! (publicNode this store).2 = Some props
    ∧ props !! "publicKeyJwk" = Some (this_publicKeyJwk this)
    ∧ props !! "privateKeyJwk" = None.
Proof.
  unfold publicNode, addEncodedPublicKey. cbn [fst snd].
  destruct (truthy (JStr (this_controller this))).
  - eexists. split; [by rewrite !lookup_alter_eq, lookup_insert_eq|].
    split; by simplify_map_eq.
  - eexists. split; [by rewrite lookup_alter_eq, lookup_insert_eq|].
    split; by simplify_map_eq.
Qed.

(** X15. The public node of a key that was constructed without a public JWK
    does not give the private exponent away: the JWK under
    [publicKeyJwk] has no [d], and the node has no [privateKeyJwk]. *)
Theorem publicNode_without_private_exponent `{Collaborators}
    (options : ISchnorrSecp256k1VerificationKey2019Options)
    (store : gmap nat (gmap string JsValue)) :
  publicKeyJwk options = JUndefined →
  let key := constructor options in
  ∃ props jwk,
    (publicNode key store).1 !! (publicNode key store).2 = Some props
    ∧ props !! "publicKeyJwk" = Some jwk
    ∧ jwk = JObj (delete "d" (spread (privateKeyJwk options)))
    ∧ own_property jwk "d" = None
    ∧ props !! "privateKeyJwk" = None.
Proof.
  intros Hundef key. subst key.
  destruct (publicNode_publicKeyJwk (constructor options) store)
    as (props & Hnode & Hjwk & Hnone).
  exists props, (this_publicKeyJwk (constructor options)).
  split; [exact Hnode|]. split; [exact Hjwk|].
  rewrite constructor_publicKeyJwk, Hundef. cbn [is_undefined own_property].
  split; [done|]. split; [apply lookup_delete_eq|exact Hnone].
Qed.

Lemma publicNode_without_private_exponent_witness :
  let key := @constructor sample_collaborators sample_private_only in
  publicKeyJwk sample_private_only = JUndefined
  ∧ ∃ props jwk,
      (publicNode key ∅).1 !! (publicNode key ∅).2 = Some props
      ∧ props !! "publicKeyJwk" = Some jwk
      ∧ jwk = JObj (delete "d" (spread (privateKeyJwk sample_private_only)))
      ∧ own_property jwk "d" = None
      ∧ props !! "privateKeyJwk" = None.
Proof.
  intros key. split; [reflexivity|].
  exact (@publicNode_without_private_exponent sample_collaborators
           sample_private_only ∅ eq_refl).
Defined.

(** X16. The verifier of a key that was constructed without a public JWK
    never hands the private exponent to the verification primitive:
    the JWK of every call is the private JWK without [d]. *)
Theorem verify_without_private_exponent `{Collaborators}
    (options : ISchnorrSecp256k1VerificationKey2019Options)
    (data : Uint8Array.t) (signature : string) :
  publicKeyJwk options = JUndefined →
  ∀ signature' payload jwk,
    CallVerifyDetached signature' payload jwk
      ∈ events (verify (verifier (constructor options)) data signature) →
    jwk = JObj (delete "d" (spread (privateKeyJwk options)))
    ∧ own_property jwk "d" = None.
Proof.
  intros Hundef signature' payload jwk.
  assert (this_publicKeyJwk (constructor options)
          = JObj (delete "d" (spread (privateKeyJwk options)))) as Hpk
    by (by rewrite constructor_publicKeyJwk, Hundef).
  rewrite verifier_with_public_key by (by rewrite Hpk).
  verify_cases signature; cbn [as_options publicKeyJwk]; rewrite ?Hpk.
  - intros [=]%list_elem_of_singleton.
  - intros [= _ _ ->]%list_elem_of_singleton.
    split; [done|]. apply lookup_delete_eq.
  - intros [= _ _ ->]%list_elem_of_singleton.
    split; [done|]. apply lookup_delete_eq.
  - by intros ?%elem_of_nil.
  - by intros ?%elem_of_nil.
Qed.

Lemma verify_without_private_exponent_witness :
  publicKeyJwk sample_private_only = JUndefined
  ∧ CallVerifyDetached sample_signature [Byte.x68; Byte.x69] (JObj sample_publicKeyJwk)
      ∈ events (verify (@verifier sample_collaborators
                          (@constructor sample_collaborators sample_private_only))
                  sample_data sample_signature)
  ∧ own_property (JObj sample_publicKeyJwk) "d" = None.
Proof.
  split; [reflexivity|].
  assert (CallVerifyDetached sample_signature [Byte.x68; Byte.x69]
            (JObj sample_publicKeyJwk)
          ∈ events (verify (@verifier sample_collaborators
                              (@constructor sample_collaborators sample_private_only))
                      sample_data sample_signature)) as Hin.
  { vm_compute. apply list_elem_of_here. }
  split; [exact Hin|].
  exact (proj2 (@verify_without_private_exponent sample_collaborators
                  sample_private_only sample_data sample_signature eq_refl
                  _ _ _ Hin)).
Defined.

(** * Further properties of the document loader *)

(** X17. Whatever the URL, a document that the loader returns comes with a
    [null] context URL and with the URL that was asked for, and the
    only error that the loader raises is the one that names the
    URL. *)
Theorem customLoader_result `{ContextDocuments} (url : string) :
  (∀ remote,
     customLoader url = Returned remote →
     contextUrl remote = JNull ∧ documentUrl remote = url
     ∧ (document remote = js_get (JObj contexts) url ∨ document remote = didDoc))
  ∧ (∀ e, customLoader url = Thrown e →
          e = UnsupportedContextUrl url
          ∧ truthy (js_get (JObj contexts) url) = false
          ∧ before_separator "#" url ≠ "did:example:123").
Proof.
  unfold customLoader.
  destruct (truthy (js_get (JObj contexts) url)) eqn:Hcontext.
  - split; [|discriminate]. intros remote [= <-]. cbn. auto.
  - destruct (String.eqb_spec (before_separator "#" url) "did:example:123").
    + split; [|discriminate]. intros remote [= <-]. cbn. auto.
    + split; [discriminate|]. intros e [= <-]. auto.
Qed.

Lemma contexts_lookup `{ContextDocuments} :
  contexts !! "https://www.w3.org/ns/did/v1" = Some did_v1
  ∧ contexts !! "https://w3id.org/did/v1" = Some did_v0_11
  ∧ contexts !! "https://w3id.org/security/v1" = Some security_v1
  ∧ contexts !! "https://w3id.org/security/v2" = Some security_v2
  ∧ contexts !! schnorr_v1_url = Some schnorr_v1.
Proof. unfold contexts, schnorr_v1_url. repeat split; by simplify_map_eq. Qed.

(** X18. The five URLs of the table resolve to their documents, provided
    the documents are truthy, as JSON-LD contexts are; and the table
    has these five entries only. *)
Theorem customLoader_known_contexts `{ContextDocuments} :
  truthy did_v1 = true → truthy did_v0_11 = true →
  truthy security_v1 = true → truthy security_v2 = true →
  truthy schnorr_v1 = true →
  let resolved url doc :=
    customLoader url
    = Returned {| contextUrl := JNull; document := doc; documentUrl := url |} in
  resolved "https://www.w3.org/ns/did/v1" did_v1
  ∧ resolved "https://w3id.org/did/v1" did_v0_11
  ∧ resolved "https://w3id.org/security/v1" security_v1
  ∧ resolved "https://w3id.org/security/v2" security_v2
  ∧ resolved schnorr_v1_url schnorr_v1
  ∧ size contexts = 5.
Proof.
  intros H1 H2 H3 H4 H5 resolved. subst resolved. cbn beta.
  destruct contexts_lookup as (L1 & L2 & L3 & L4 & L5).
  split; [by apply customLoader_table|]. split; [by apply customLoader_table|].
  split; [by apply customLoader_table|]. split; [by apply customLoader_table|].
  split; [by apply customLoader_table|]. reflexivity.
Qed.

Lemma customLoader_known_contexts_witness :
  truthy (@security_v2 sample_documents) = true
  ∧ @customLoader sample_documents "https://w3id.org/security/v2"
    = Returned {| contextUrl := JNull;
                  document := @security_v2 sample_documents;
                  documentUrl := "https://w3id.org/security/v2" |}.
Proof.
  split; [reflexivity|].
  exact (proj1 (proj2 (proj2 (proj2
           (@customLoader_known_contexts sample_documents
              eq_refl eq_refl eq_refl eq_refl eq_refl))))).
Defined.

Lemma contexts_lookup_did `{ContextDocuments} (rest : string) :
  contexts !! ("did:" +:+ rest) = None.
Proof.
  unfold contexts, schnorr_v1_url.
  by rewrite !lookup_insert_ne, lookup_empty.
Qed.

(** X19. The example DID resolves to the example DID document, alone and
    followed by any fragment, whatever the documents of the table
    are. *)
Theorem customLoader_example_did `{ContextDocuments} (fragment : string) :
  customLoader "did:example:123"
  = Returned {| contextUrl := JNull; document := didDoc;
                documentUrl := "did:example:123" |}
  ∧ customLoader ("did:example:123#" +:+ fragment)
    = Returned {| contextUrl := JNull; document := didDoc;
                  documentUrl := "did:example:123#" +:+ fragment |}.
Proof.
  split.
  - rewrite customLoader_other; [reflexivity| |discriminate|reflexivity].
    apply (contexts_lookup_did "example:123").
  - rewrite customLoader_other; [|apply (contexts_lookup_did ("example:123#" +:+ fragment))
                                 |discriminate|reflexivity].
    by destruct fragment.
Qed.

(** X20. Closed world: an [https] URL that is no entry of the table is
    refused with the error that names it. *)
Theorem customLoader_refuses_https `{ContextDocuments} (rest : string) :
  contexts !! ("https://" +:+ rest) = None →
  customLoader ("https://" +:+ rest)
  = Thrown (UnsupportedContextUrl ("https://" +:+ rest)).
Proof.
  intros Hrest. rewrite customLoader_other; [reflexivity|exact Hrest|discriminate|reflexivity].
Qed.

Lemma customLoader_refuses_https_witness :
  @contexts sample_documents !! ("https://" +:+ "unknown.example/ctx") = None
  ∧ @customLoader sample_documents ("https://" +:+ "unknown.example/ctx")
    = Thrown (UnsupportedContextUrl ("https://" +:+ "unknown.example/ctx")).
Proof.
  assert (@contexts sample_documents !! ("https://" +:+ "unknown.example/ctx") = None)
    as Hrest by (vm_compute; reflexivity).
  split; [exact Hrest|].
  exact (@customLoader_refuses_https sample_documents "unknown.example/ctx" Hrest).
Defined.

(** * The header segment of a signature *)

Lemma prefix_app (s rest : string) : String.prefix s (s +:+ rest) = true.
Proof.
  induction s as [|c s IH]; [by destruct rest|].
  change (String c s +:+ rest) with (String c (s +:+ rest)).
  cbn [String.prefix]. by destruct (Ascii.ascii_dec c c).
Qed.

Lemma index_cons_None (sep : string) (b : Ascii.ascii) (s : string) :
  String.index 0 sep (String b s) = None →
  String.prefix sep (String b s) = false ∧ String.index 0 sep s = None.
Proof.
  cbn [String.index]. destruct (String.prefix sep (String b s)); [discriminate|].
  by destruct (String.index 0 sep s).
Qed.

Lemma before_separator_absent (c : Ascii.ascii) (sep h rest : string) :
  String.index 0 (String c "") h = None →
  before_separator (String c sep) (h +:+ String c sep +:+ rest) = h.
Proof.
  induction h as [|b h IH]; intros Hindex.
  - change ("" +:+ String c sep +:+ rest) with (String c (sep +:+ rest)).
    cbn [before_separator].
    change (String c (sep +:+ rest)) with (String c sep +:+ rest).
    by rewrite prefix_app.
  - apply index_cons_None in Hindex as [Hprefix Hindex].
    change (String b h +:+ String c sep +:+ rest)
      with (String b (h +:+ String c sep +:+ rest)).
    cbn [before_separator].
    assert (String.prefix (String c sep) (String b (h +:+ String c sep +:+ rest))
            = false) as ->.
    { cbn [String.prefix] in Hprefix |- *.
      destruct (Ascii.ascii_dec c b); [|done]. by destruct h. }
    by rewrite IH.
Qed.

Lemma before_separator_none (sep s : string) :
  String.index 0 sep s = None → before_separator sep s = s.
Proof.
  induction s as [|b s IH]; intros Hindex; [done|].
  apply index_cons_None in Hindex as [Hprefix Hindex].
  cbn [before_separator]. by rewrite Hprefix, IH.
Qed.

(** X21. The header that [verify] decodes.  For a signature of the detached
    form, an encoded header without a dot, [".."] and anything after
    it, it is that encoded header; for a signature that has no [".."]
    in it, it is the whole signature. *)
Theorem encodedHeader_of_signature (h rest : string) :
  (String.index 0 "." h = None → before_separator ".." (h +:+ ".." +:+ rest) = h)
  ∧ (String.index 0 ".." h = None → before_separator ".." h = h).
Proof.
  split.
  - apply before_separator_absent.
  - apply before_separator_none.
Qed.

Lemma encodedHeader_of_signature_witness :
  String.index 0 "." encoded_sign_header = None
  ∧ before_separator ".." (encoded_sign_header +:+ ".." +:+ "c2lnbmF0dXJl")
    = encoded_sign_header.
Proof.
  split; [reflexivity|].
  apply (proj1 (encodedHeader_of_signature encoded_sign_header "c2lnbmF0dXJl")).
  reflexivity.
Defined.
